(** * gsc-cli: the OAuth2 credential lifecycle

    A shallow embedding of package [auth] of gsc-cli (the keychain store
    [GetToken]/[SetToken]/[DeleteToken], the lazy refresh [GetValidToken],
    the status query [GetTokenInfo] and the browser login [LoginFlow]) and the
    properties its specification states about them.

    The Go code threads its effects through the operating system: the
    keychain, the clock, the file system, the network, the process-wide HTTP
    multiplexer.  Here they are a [World] that every operation takes and
    returns, and an [Env] of oracles that answer for whatever the program
    cannot decide (what the provider replies, what the clock reads, whether
    the keychain backend is reachable).  Every oracle sees the trace of what
    happened so far, so two calls may be answered differently. *)

From stdpp Require Import base option list gmap strings pretty.
From Stdlib Require Import ZArith Lia Ascii.

(** ** Go values *)

(** Go's [error] values as the program builds and compares them.
    [keyring.ErrNotFound] is a sentinel compared with [==]; [fmt.Errorf] with
    a [%w] verb wraps its cause behind a prefix, without one it is only a
    message. *)
Inductive error : Type :=
| ErrNotFound
| errorString (msg : string)
| wrapError (prefix : string) (cause : error).

#[global] Instance error_eq_dec : EqDecision error.
Proof. solve_decision. Defined.

(** [err.Error()]. *)
Fixpoint Error (e : error) : string :=
  match e with
  | ErrNotFound => "secret not found in keyring"
  | errorString msg => msg
  | wrapError prefix cause => prefix +:+ Error cause
  end.

(** A Go result pair [(T, error)]: exactly one side is meaningful. *)
Definition result (A : Type) : Type := error + A.
Abbreviation Err e := (inl e) (only parsing).
Abbreviation Ok a := (inr a) (only parsing).

Module time.

(** An instant, in nanoseconds since the zero [time.Time]
    (January 1, year 1, 00:00 UTC). *)
Definition Time : Type := Z.
Definition Duration : Type := Z.

Definition zero : Time := 0%Z.
Definition Second : Duration := 1000000000%Z.
Definition Minute : Duration := (60 * Second)%Z.

Definition IsZero (t : Time) : bool := Z.eqb t zero.
Definition Before (t u : Time) : bool := Z.ltb t u.
Definition Add (t : Time) (d : Duration) : Time := (t + d)%Z.

End time.

Module oauth2.

(** [oauth2.Token], its exported fields. *)
Record Token : Type := mkToken {
  AccessToken : string;
  TokenType : string;
  RefreshToken : string;
  Expiry : time.Time;
}.

#[global] Instance Token_eq_dec : EqDecision Token.
Proof. solve_decision. Defined.

(** [oauth2.Config] with its [Endpoint] flattened. *)
Record Config : Type := mkConfig {
  ClientID : string;
  ClientSecret : string;
  AuthURL : string;
  TokenURL : string;
  RedirectURL : string;
  Scopes : list string;
}.

#[global] Instance Config_eq_dec : EqDecision Config.
Proof. solve_decision. Defined.

Definition with_RedirectURL (c : Config) (u : string) : Config :=
  {| ClientID := ClientID c; ClientSecret := ClientSecret c;
     AuthURL := AuthURL c; TokenURL := TokenURL c;
     RedirectURL := u; Scopes := Scopes c |}.

(** What the provider's token endpoint answered, as the library decodes it:
    an absent member is the empty string, an absent [expires_in] is 0. *)
Record TokenResponse : Type := mkTokenResponse {
  access_token : string;
  token_type : string;
  refresh_token : string;
  expires_in : Z;
}.

End oauth2.
Export oauth2.

Module url.

(** [url.Values], a multimap from keys to their values in order. *)
Abbreviation Values := (gmap string (list string)).

(** [v.Get(key)]: the first value of [key], the empty string when the key
    has none. *)
Definition Get (v : Values) (key : string) : string :=
  match v !! key with
  | Some (x :: _) => x
  | _ => ""
  end.

(** [v.Set(key, value)]. *)
Definition Set_ (key value : string) (v : Values) : Values :=
  <[key := [value]]> v.

(** A URL with a query: what precedes the [?] and the decoded query. *)
Record URL : Type := mkURL {
  Base : string;
  Query : Values;
}.

End url.

(** ** The world *)

(** What the program did to the outside, oldest first. [EvRefreshToken] marks
    an entry into [RefreshToken], the exchanger's refresh mode;
    [EvRoundTrip] one request to the provider's token endpoint. *)
Inductive Event : Type :=
| EvKeyringGet (service user : string)
| EvKeyringSet (service user password : string)
| EvKeyringDelete (service user : string)
| EvNow
| EvReadFile (path : string)
| EvRefreshToken (clientSecretPath : string) (token : Token)
| EvRoundTrip (cfg : Config) (form : list (string * string))
| EvListen (network address : string)
| EvClose (port : Z)
| EvHandleFunc (pattern : string)
| EvServe (port : Z)
| EvShutdown
| EvRespond (status : Z) (body : string)
| EvPrintln (line : string)
| EvPrintlnURL (u : url.URL)
| EvOpenURL (u : url.URL).

Record World : Type := mkWorld {
  keychain : gmap (string * string) string;
  (** patterns registered on [http.DefaultServeMux]: one per process *)
  mux : gset string;
  (** ports this process listens on *)
  listening : gset Z;
  trace : list Event;
}.

(** A process that has just started, over a keychain [kc]. *)
Definition fresh_process (kc : gmap (string * string) string) : World :=
  {| keychain := kc; mux := ∅; listening := ∅; trace := [] |}.

(** The state monad of the embedding. *)
Definition M (A : Type) : Type := World → A * World.

#[global] Instance M_ret : MRet M := λ A a w, (a, w).
#[global] Instance M_bind : MBind M := λ A B k m w,
  let '(a, w') := m w in k a w'.

(** [w] with one more event. *)
Definition log (ev : Event) (w : World) : World :=
  {| keychain := keychain w; mux := mux w; listening := listening w;
     trace := trace w ++ [ev] |}.

Definition emit (ev : Event) : M unit := λ w, (tt, log ev w).

Definition set_keychain (kc : gmap (string * string) string) : M unit := λ w,
  (tt, {| keychain := kc; mux := mux w; listening := listening w;
          trace := trace w |}).

Definition set_mux (m : gset string) : M unit := λ w,
  (tt, {| keychain := keychain w; mux := m; listening := listening w;
          trace := trace w |}).

Definition set_listening (l : gset Z) : M unit := λ w,
  (tt, {| keychain := keychain w; mux := mux w; listening := l;
          trace := trace w |}).

Definition get_world : M World := λ w, (w, w).

(** Unfolds the monad where a proof follows a run step by step. *)
Ltac run :=
  unfold mbind, M_bind, mret, M_ret, get_world, emit, set_keychain, set_mux,
    set_listening in *.

(** The events a run from [w] to [w'] added. *)
Definition events_since (w w' : World) : list Event :=
  drop (length (trace w)) (trace w').

(** Kinds of events. *)
Definition is_refresh_call (ev : Event) : bool :=
  match ev with EvRefreshToken _ _ => true | _ => false end.

Definition is_round_trip (ev : Event) : bool :=
  match ev with EvRoundTrip _ _ => true | _ => false end.

Definition is_store_write (ev : Event) : bool :=
  match ev with
  | EvKeyringSet _ _ _ | EvKeyringDelete _ _ => true
  | _ => false
  end.

(** How many events of a kind a run added. *)
Definition count_events (p : Event → bool) (evs : list Event) : nat :=
  length (List.filter p evs).

(** What can wake the login's rendezvous besides its timer: a request to
    the callback route with its query, or the failure of the goroutine that
    serves. *)
Inductive Arrival : Type :=
| Request (query : url.Values)
| ServeFailed (err : error).

(** ** The environment *)

(** The collaborators whose answers the program does not decide.
    [encoding/json] is a pure codec; the others read the trace. *)
Record Env : Type := mkEnv {
  json_Marshal : Token → result string;
  json_Unmarshal : string → result Token;
  (** [Some msg]: the keychain backend fails this call with [msg] *)
  keyring_fault : list Event → option string;
  clock : list Event → time.Time;
  (** what [os.ReadFile] finds at a path *)
  read_file : list Event → string → result string;
  google_ConfigFromJSON : string → string → result Config;
  (** the provider's reply to the POST of a form to the token endpoint *)
  provider :
    list Event → Config → list (string * string) → result TokenResponse;
  (** the port the OS hands out for an address with port 0 *)
  assigned_port : list Event → string → string → result Z;
  (** whether the default browser could be started on a URL *)
  open_browser : list Event → url.URL → option error;
  (** what first reaches the callback server once it serves, and how long
      after: [None] when nothing ever does *)
  first_arrival : list Event → option (time.Duration * Arrival);
}.

(** [encoding/json] gives back the token [t]: decoding its encoding yields
    [t] again.  The law is per token, for the package coerces texts to
    valid UTF-8 and refuses a year of more than four digits. *)
Definition json_roundtrip (E : Env) (t : Token) : Prop :=
  ∀ s, json_Marshal E t = Ok s → json_Unmarshal E s = Ok t.

(** The keychain backend is reachable: no call fails for a reason of the
    platform. *)
Definition keyring_up (E : Env) : Prop :=
  ∀ tr, keyring_fault E tr = None.

(** ** The keychain: package [auth], token.go

    Modelled from the spec: the OS secure storage behind package [keyring]
    (github.com/zalando/go-keyring, a dependency whose source is not part
    of the repository) is the in-memory store the specification's design
    notes name: one opaque blob per (service, account), read, overwritten
    and deleted as a whole.  A read or a delete of a slot that holds
    nothing is answered [keyring.ErrNotFound]; any call may fail for a
    reason of the platform, and then changes nothing. *)

Section store.

Variable E : Env.

(** [keyring.Get(service, user)]. *)
Definition keyring_Get (service user : string) : M (result string) :=
  w ← get_world;
  _ ← emit (EvKeyringGet service user);
  match keyring_fault E (trace w) with
  | Some msg => mret (Err (errorString msg))
  | None =>
      match keychain w !! (service, user) with
      | Some password => mret (Ok password)
      | None => mret (Err ErrNotFound)
      end
  end.

(** [keyring.Set(service, user, password)]: one slot per (service, user),
    overwritten. *)
Definition keyring_Set (service user password : string) : M (option error) :=
  w ← get_world;
  _ ← emit (EvKeyringSet service user password);
  match keyring_fault E (trace w) with
  | Some msg => mret (Some (errorString msg))
  | None =>
      _ ← set_keychain (<[(service, user) := password]> (keychain w));
      mret None
  end.

(** [keyring.Delete(service, user)]. *)
Definition keyring_Delete (service user : string) : M (option error) :=
  w ← get_world;
  _ ← emit (EvKeyringDelete service user);
  match keyring_fault E (trace w) with
  | Some msg => mret (Some (errorString msg))
  | None =>
      match keychain w !! (service, user) with
      | Some _ =>
          _ ← set_keychain (delete (service, user) (keychain w));
          mret None
      | None => mret (Some ErrNotFound)
      end
  end.

Definition serviceName : string := "gsc-cli".
Definition tokenKey : string := "oauth_token".

(** [GetToken]: [(nil, nil)] is [Ok None]. *)
Definition GetToken : M (result (option Token)) :=
  r ← keyring_Get serviceName tokenKey;
  match r with
  | Err err =>
      if decide (err = ErrNotFound) then mret (Ok None)
      else mret (Err (wrapError "could not retrieve token from keyring: " err))
  | Ok data =>
      match json_Unmarshal E data with
      | Err err => mret (Err (wrapError "could not decode token: " err))
      | Ok token => mret (Ok (Some token))
      end
  end.

Definition SetToken (token : Token) : M (option error) :=
  match json_Marshal E token with
  | Err err => mret (Some (wrapError "could not encode token: " err))
  | Ok data =>
      r ← keyring_Set serviceName tokenKey data;
      match r with
      | Some err =>
          mret (Some (wrapError "could not store token in keyring: " err))
      | None => mret None
      end
  end.

Definition DeleteToken : M (option error) :=
  r ← keyring_Delete serviceName tokenKey;
  match r with
  | Some err =>
      if decide (err = ErrNotFound) then mret None
      else mret (Some (wrapError "could not delete token from keyring: " err))
  | None => mret None
  end.

Definition HasToken : M bool :=
  r ← GetToken;
  match r with
  | Ok (Some _) => mret true
  | _ => mret false
  end.

End store.

(** ** The exchanger: golang.org/x/oauth2 as package [auth] uses it

    Modelled from the spec: the TokenExchanger of the specification is, in
    the program, package golang.org/x/oauth2 ([Config.TokenSource],
    [Config.Exchange], [Config.AuthCodeURL]), a dependency whose source is
    not part of the repository.  As the specification has it, an exchange
    or a refresh is one round trip to the provider, without retry, that
    yields a token or fails; a refresh sends the stored refresh token, and
    the token it yields keeps that refresh token when the provider
    supplies none.  The rest follows the package's documentation: the token
    source [auth] asks hands back the token it was given while that token
    is valid, which a token without expiry always is, and refreshes
    otherwise.  The provider stays an oracle of the environment. *)

Section exchanger.

Variable E : Env.

(** [time.Now()]. *)
Definition time_Now : M time.Time :=
  w ← get_world;
  _ ← emit EvNow;
  mret (clock E (trace w)).

Definition defaultExpiryDelta : time.Duration := (10 * time.Second)%Z.

(** [Token.expired]: a token without expiry never expires; any other is
    taken as expired ten seconds early.  The clock is read only when it
    matters. *)
Definition Token_expired (t : Token) : M bool :=
  if time.IsZero (Expiry t) then mret false
  else
    now ← time_Now;
    mret (time.Before (time.Add (Expiry t) (- defaultExpiryDelta)%Z) now).

(** [Token.Valid], on a token that is not nil. *)
Definition Token_Valid (t : Token) : M bool :=
  if decide (AccessToken t = "") then mret false
  else
    e ← Token_expired t;
    mret (negb e).

(** The value of [key] in a form, the empty string when it has none. *)
Fixpoint form_Get (form : list (string * string)) (key : string) : string :=
  match form with
  | [] => ""
  | (k, v) :: rest => if decide (k = key) then v else form_Get rest key
  end.

(** [retrieveToken]: one POST of [form] to the token endpoint.  A reply
    without access token is an error; the expiry is counted from now when
    the reply carries [expires_in]; a reply without refresh token keeps the
    one the form sent. *)
Definition retrieveToken (conf : Config) (form : list (string * string))
  : M (result Token) :=
  w ← get_world;
  _ ← emit (EvRoundTrip conf form);
  match provider E (trace w) conf form with
  | Err err => mret (Err err)
  | Ok reply =>
      expiry ← (if decide (expires_in reply = 0%Z) then mret time.zero
                else
                  now ← time_Now;
                  mret (time.Add now (expires_in reply * time.Second)%Z));
      if decide (access_token reply = "") then
        mret (Err (errorString "oauth2: server response missing access_token"))
      else
        mret (Ok {| AccessToken := access_token reply;
                    TokenType := token_type reply;
                    RefreshToken :=
                      if decide (refresh_token reply = "")
                      then form_Get form "refresh_token"
                      else refresh_token reply;
                    Expiry := expiry |})
  end.

(** [tokenRefresher.Token]. *)
Definition tokenRefresher_Token (conf : Config) (refreshToken : string)
  : M (result Token) :=
  if decide (refreshToken = "") then
    mret (Err (errorString
                 "oauth2: token expired and refresh token is not set"))
  else
    retrieveToken conf [("grant_type", "refresh_token");
                        ("refresh_token", refreshToken)].

(** [config.TokenSource(ctx, t).Token()], the first call on a new source:
    the token it was given while that one is valid, a refreshed one
    otherwise. *)
Definition TokenSource_Token (conf : Config) (t : Token) : M (result Token) :=
  valid ← Token_Valid t;
  if (valid : bool) then mret (Ok t)
  else tokenRefresher_Token conf (RefreshToken t).

(** [config.Exchange(ctx, code)]. *)
Definition Exchange (conf : Config) (code : string) : M (result Token) :=
  let redirect : list (string * string) :=
    if decide (RedirectURL conf = "") then []
    else [("redirect_uri", RedirectURL conf)] in
  retrieveToken conf
    (("grant_type", "authorization_code") :: ("code", code) :: redirect).

End exchanger.

Definition AccessTypeOffline : string * string := ("access_type", "offline").
Definition ApprovalForce : string * string := ("prompt", "consent").

(** [strings.Join(elems, sep)]. *)
Fixpoint strings_Join (elems : list string) (sep : string) : string :=
  match elems with
  | [] => ""
  | [x] => x
  | x :: rest => x +:+ sep +:+ strings_Join rest sep
  end.

(** [config.AuthCodeURL(state, opts...)]. *)
Definition AuthCodeURL (c : Config) (state : string)
    (opts : list (string * string)) : url.URL :=
  let v : url.Values :=
    url.Set_ "client_id" (ClientID c) (url.Set_ "response_type" "code" ∅) in
  let v := if decide (RedirectURL c = "") then v
           else url.Set_ "redirect_uri" (RedirectURL c) v in
  let v := match Scopes c with
           | [] => v
           | _ => url.Set_ "scope" (strings_Join (Scopes c) " ") v
           end in
  let v := if decide (state = "") then v else url.Set_ "state" state v in
  let v := foldl (λ v opt, url.Set_ opt.1 opt.2 v) v opts in
  {| url.Base := AuthURL c; url.Query := v |}.

(** ** Package [auth], oauth.go *)

(** What a call leaves behind: its results, or the value it panicked
    with. *)
Inductive outcome (A : Type) : Type :=
| Returned (a : A)
| Panicked (v : string).
Arguments Returned {A} a.
Arguments Panicked {A} v.

(** How the login's [select] resolved. *)
Inductive Resolution : Type :=
| Completed (code : string)
| Failed (err : error)
| TimedOut.

(** What the callback handler put on a channel. *)
Inductive ChanMsg : Type :=
| OnCodeChan (code : string)
| OnErrChan (err : error).

Module TokenInfo.
Record t : Type := mk {
  HasToken : bool;
  Expiry : time.Time;
  IsExpired : bool;
  TokenType : string;
}.
End TokenInfo.

Definition LF : string := String "010"%char EmptyString.
Definition TAB : string := String "009"%char EmptyString.

Definition searchConsoleScope : string :=
  "https://www.googleapis.com/auth/webmasters.readonly".

Definition StatusOK : Z := 200.
Definition StatusBadRequest : Z := 400.

(** The page the handler writes after it has passed on a code. *)
Definition successPage : string :=
  "<html><body>" +:+ LF +:+
  TAB +:+ TAB +:+ TAB +:+ "<h1>Authorization Successful!</h1>" +:+ LF +:+
  TAB +:+ TAB +:+ TAB +:+
    "<p>You can close this window and return to the terminal.</p>" +:+ LF +:+
  TAB +:+ TAB +:+ TAB +:+ "<script>window.close();</script>" +:+ LF +:+
  TAB +:+ TAB +:+ "</body></html>".

(** The page it writes with a failure. *)
Definition failurePage (errMsg : string) : string :=
  "<html><body><h1>Authorization Failed</h1><p>" +:+ errMsg +:+
  "</p></body></html>".

(** The login waits this long for the callback. *)
Definition loginDeadline : time.Duration := (5 * time.Minute)%Z.

Section auth.

Variable E : Env.

(** [os.ReadFile(path)]. *)
Definition os_ReadFile (path : string) : M (result string) :=
  w ← get_world;
  _ ← emit (EvReadFile path);
  mret (read_file E (trace w) path).

Definition LoadClientConfig (clientSecretPath : string) : M (result Config) :=
  r ← os_ReadFile clientSecretPath;
  match r with
  | Err err => mret (Err (wrapError "could not read client secret file: " err))
  | Ok data =>
      match google_ConfigFromJSON E data searchConsoleScope with
      | Err err => mret (Err (wrapError "could not parse client secret: " err))
      | Ok config => mret (Ok config)
      end
  end.

(** [net.Listen(network, address)], address with port 0: the port is the
    operating system's choice. *)
Definition net_Listen (network address : string) : M (result Z) :=
  w ← get_world;
  _ ← emit (EvListen network address);
  match assigned_port E (trace w) network address with
  | Err err => mret (Err err)
  | Ok port =>
      _ ← set_listening ({[port]} ∪ listening w);
      mret (Ok port)
  end.

(** [listener.Close()]. *)
Definition listener_Close (port : Z) : M unit :=
  w ← get_world;
  _ ← emit (EvClose port);
  set_listening (listening w ∖ {[port]}).

(** [http.HandleFunc(pattern, handler)] registers on the one
    [DefaultServeMux] of the process and panics on a pattern that is
    registered already; [Some v] is the panic. *)
Definition http_HandleFunc (pattern : string) : M (option string) :=
  w ← get_world;
  _ ← emit (EvHandleFunc pattern);
  if decide (pattern ∈ mux w) then
    mret (Some ("http: multiple registrations for " +:+ pattern))
  else
    _ ← set_mux ({[pattern]} ∪ mux w);
    mret None.

(** [server.Shutdown(ctx)] closes the listener it serves. *)
Definition server_Shutdown (port : Z) : M unit :=
  w ← get_world;
  _ ← emit EvShutdown;
  set_listening (listening w ∖ {[port]}).

(** [browser.OpenURL(url)]. *)
Definition browser_OpenURL (u : url.URL) : M (option error) :=
  w ← get_world;
  _ ← emit (EvOpenURL u);
  mret (open_browser E (trace w) u).

(** The handler of [/callback]: what it sends on which channel, and the
    response it writes. *)
Definition callbackHandler (query : url.Values) : M ChanMsg :=
  let code := url.Get query "code" in
  if decide (code = "") then
    let errMsg := url.Get query "error" in
    let errMsg := if decide (errMsg = "")
                  then "no authorization code received" else errMsg in
    _ ← emit (EvRespond StatusBadRequest (failurePage errMsg));
    mret (OnErrChan (errorString ("authorization failed: " +:+ errMsg)))
  else
    _ ← emit (EvRespond StatusOK successPage);
    mret (OnCodeChan code).

(** The [select] of [LoginFlow] and what it waits for.  The handler runs in
    the goroutine that serves and passes its result over a channel of
    capacity one; so does that goroutine when serving fails.  The first
    arrival decides when it comes before the deadline, the timer does
    otherwise; [LoginFlow] shuts the server down right after, so the attempt
    is followed up to its first arrival. *)
Definition await : M Resolution :=
  w ← get_world;
  match first_arrival E (trace w) with
  | Some (delay, arrival) =>
      if decide (delay < loginDeadline)%Z then
        match arrival with
        | Request query =>
            msg ← callbackHandler query;
            match msg with
            | OnCodeChan code => mret (Completed code)
            | OnErrChan err => mret (Failed err)
            end
        | ServeFailed err =>
            mret (Failed (wrapError "callback server error: " err))
        end
      else mret TimedOut
  | None => mret TimedOut
  end.

(** [LoginFlow] from the registration of the handler on, with the listener
    open on [port]; [LoginFlow] below closes it whatever happens here. *)
Definition LoginFlow_serve (config : Config) (port : Z)
  : M (outcome (result Token)) :=
  let config :=
    with_RedirectURL config
      ("http://localhost:" +:+ pretty port +:+ "/callback") in
  p ← http_HandleFunc "/callback";
  match p with
  | Some v => mret (Panicked v)
  | None =>
      _ ← emit (EvServe port);
      let authURL :=
        AuthCodeURL config "state" [AccessTypeOffline; ApprovalForce] in
      _ ← emit (EvPrintln "Opening browser for authorization...");
      _ ← emit (EvPrintln "If the browser doesn't open, visit this URL:");
      _ ← emit (EvPrintlnURL authURL);
      _ ← emit (EvPrintln "");
      b ← browser_OpenURL authURL;
      _ ← match b with
          | Some err =>
              emit (EvPrintln ("Could not open browser automatically: "
                               +:+ Error err))
          | None => mret tt
          end;
      r ← await;
      match r with
      | Failed err =>
          _ ← server_Shutdown port;
          mret (Returned (Err err))
      | TimedOut =>
          _ ← server_Shutdown port;
          mret (Returned
                  (Err (errorString "authorization timed out after 5 minutes")))
      | Completed authCode =>
          _ ← server_Shutdown port;
          r ← Exchange E config authCode;
          match r with
          | Err err =>
              mret (Returned
                      (Err (wrapError "could not exchange authorization code: "
                                      err)))
          | Ok token => mret (Returned (Ok token))
          end
      end
  end.

Definition LoginFlow (clientSecretPath : string)
  : M (outcome (result Token)) :=
  r ← LoadClientConfig clientSecretPath;
  match r with
  | Err err => mret (Returned (Err err))
  | Ok config =>
      r ← net_Listen "tcp" "localhost:0";
      match r with
      | Err err =>
          mret (Returned
                  (Err (wrapError "could not start callback server: " err)))
      | Ok port =>
          o ← LoginFlow_serve config port;
          _ ← listener_Close port;
          mret o
      end
  end.

(** [RefreshToken]; the token is not nil. *)
Definition RefreshToken (clientSecretPath : string) (token : Token)
  : M (result Token) :=
  _ ← emit (EvRefreshToken clientSecretPath token);
  r ← LoadClientConfig clientSecretPath;
  match r with
  | Err err => mret (Err err)
  | Ok config =>
      r ← TokenSource_Token E config token;
      match r with
      | Err err => mret (Err (wrapError "could not refresh token: " err))
      | Ok newToken => mret (Ok newToken)
      end
  end.

Definition GetValidToken (clientSecretPath : string) : M (result Token) :=
  r ← GetToken E;
  match r with
  | Err err => mret (Err err)
  | Ok None =>
      mret (Err (errorString "not logged in - run 'gsc auth login' first"))
  | Ok (Some token) =>
      now ← time_Now E;
      if time.Before (Expiry token) now then
        r ← RefreshToken clientSecretPath token;
        match r with
        | Err err => mret (Err err)
        | Ok token =>
            r ← SetToken E token;
            match r with
            | Some err => mret (Err err)
            | None => mret (Ok token)
            end
        end
      else mret (Ok token)
  end.

Definition GetTokenInfo : M (result TokenInfo.t) :=
  r ← GetToken E;
  match r with
  | Err err => mret (Err err)
  | Ok None =>
      mret (Ok {| TokenInfo.HasToken := false;
                  TokenInfo.Expiry := time.zero;
                  TokenInfo.IsExpired := false;
                  TokenInfo.TokenType := "" |})
  | Ok (Some token) =>
      now ← time_Now E;
      mret (Ok {| TokenInfo.HasToken := true;
                  TokenInfo.Expiry := Expiry token;
                  TokenInfo.IsExpired := time.Before (Expiry token) now;
                  TokenInfo.TokenType := TokenType token |})
  end.

End auth.

(** ** A reference environment

    An in-memory stand-in for the collaborators, to run the program on
    concrete inputs: a keychain that is always reachable, a clock that
    stands still, one client secret, a provider with one reply, and a codec
    that writes a token as the binary digits of its code. *)

Module Fake.

Fixpoint bits (p : positive) : string :=
  match p with
  | xH => ""
  | xO q => String "0" (bits q)
  | xI q => String "1" (bits q)
  end.

Fixpoint unbits (s : string) : positive :=
  match s with
  | EmptyString => xH
  | String c r => if decide (c = "0"%char) then xO (unbits r) else xI (unbits r)
  end.

Definition fields (t : Token) : string * string * string * Z :=
  (AccessToken t, TokenType t, oauth2.RefreshToken t, Expiry t).

Definition of_fields (f : string * string * string * Z) : Token :=
  let '(a, ty, r, e) := f in
  {| AccessToken := a; TokenType := ty; oauth2.RefreshToken := r;
     Expiry := e |}.

Definition Marshal (t : Token) : result string :=
  Ok (bits (encode (fields t))).

Definition Unmarshal (s : string) : result Token :=
  match decode (unbits s) with
  | Some f => Ok (of_fields f)
  | None => Err (errorString "invalid character looking for beginning of value")
  end.

(** A token that expires at instant 5000. *)
Definition token : Token :=
  {| AccessToken := "tok1"; TokenType := "Bearer";
     oauth2.RefreshToken := "ref1"; Expiry := 5000%Z |}.

(** A token without expiry. *)
Definition unexpiring : Token :=
  {| AccessToken := "tok0"; TokenType := "Bearer";
     oauth2.RefreshToken := "ref0"; Expiry := time.zero |}.

(** The client of the one client secret there is. *)
Definition config : Config :=
  {| ClientID := "abc"; ClientSecret := "xyz";
     AuthURL := "https://accounts.google.com/o/oauth2/auth";
     TokenURL := "https://oauth2.googleapis.com/token";
     RedirectURL := "";
     Scopes := [searchConsoleScope] |}.

(** The environment in which the clock reads [now], the provider answers
    [reply], the OS hands out [port] and [arrival] reaches the callback
    server. *)
Definition env (now : time.Time) (reply : result TokenResponse) (port : Z)
    (arrival : option (time.Duration * Arrival)) : Env :=
  {| json_Marshal := Marshal;
     json_Unmarshal := Unmarshal;
     keyring_fault := λ _, None;
     clock := λ _, now;
     read_file := λ _ _, Ok "{}";
     google_ConfigFromJSON := λ _ _, Ok config;
     provider := λ _ _ _, reply;
     assigned_port := λ _ _ _, Ok port;
     open_browser := λ _ _, None;
     first_arrival := λ _, arrival |}.

(** A reply of the provider that carries no refresh token. *)
Definition reply : TokenResponse :=
  {| access_token := "tok2"; token_type := "Bearer"; refresh_token := "";
     expires_in := 3600 |}.

(** At instant 6000, where [token] has expired, with a provider that
    answers [reply]. *)
Definition online : Env := env 6000%Z (Ok reply) 49152%Z None.

(** At instant 4000, where [token] is still good. *)
Definition early : Env := env 4000%Z (Ok reply) 49152%Z None.

(** At instant 6000, with no network and nobody at the browser. *)
Definition offline : Env :=
  env 6000%Z (Err (errorString "dial tcp: no route to host")) 49152%Z None.

(** The same with a keychain backend that is down. *)
Definition env_keyring_down (now : time.Time) : Env :=
  {| json_Marshal := Marshal;
     json_Unmarshal := Unmarshal;
     keyring_fault := λ _, Some "secret service is not available";
     clock := λ _, now;
     read_file := λ _ _, Ok "{}";
     google_ConfigFromJSON := λ _ _, Ok config;
     provider := λ _ _ _, Err (errorString "unreachable");
     assigned_port := λ _ _ _, Ok 0%Z;
     open_browser := λ _ _, None;
     first_arrival := λ _, None |}.

(** The query of [/callback?code=AUTH123&state=state]. *)
Definition code_query : url.Values :=
  {[ "code" := ["AUTH123"]; "state" := ["state"] ]}.

(** The query of [/callback?error=access_denied]. *)
Definition denied_query : url.Values := {[ "error" := ["access_denied"] ]}.

(** The query of [/callback?code=]. *)
Definition empty_code : url.Values := {[ "code" := [""] ]}.

(** At instant 6000, with a user who consents at once: the provider
    redirects with a code. *)
Definition consenting : Env :=
  env 6000%Z (Ok reply) 49152%Z (Some (1%Z, Request code_query)).

(** A keychain that holds [t]. *)
Definition keychain_with (t : Token) : gmap (string * string) string :=
  match Marshal t with
  | Ok data => {[ (serviceName, tokenKey) := data ]}
  | Err _ => ∅
  end.

End Fake.

(** ** Vocabulary of the specification *)

(** The failures the specification names, as [auth] builds them. *)
Definition NotAuthenticated : error :=
  errorString "not logged in - run 'gsc auth login' first".

Definition RefreshFailed (cause : error) : error :=
  wrapError "could not refresh token: " cause.

Definition AuthorizationDenied (reason : string) : error :=
  errorString ("authorization failed: " +:+ reason).

Definition TimeoutError : error :=
  errorString "authorization timed out after 5 minutes".

(** Events that neither write the keychain nor enter [RefreshToken]: what
    the exchanger and the loading of the client secret may add. *)
Definition quiet (ev : Event) : bool :=
  match ev with
  | EvNow | EvReadFile _ | EvRoundTrip _ _ => true
  | _ => false
  end.

(** A computation every run of which takes a world to one related by
    [R]. *)
Definition respects (R : relation World) {A : Type} (m : M A) : Prop :=
  ∀ w a w', m w = (a, w') → R w w'.

(** The later world has only more events, all of kind [p]. *)
Definition logs (p : Event → bool) : relation World := λ w w',
  ∃ evs, trace w' = trace w ++ evs ∧ forallb p evs = true.

(** The same, and keychain, multiplexer and listeners are as before. *)
Definition only_logs (p : Event → bool) : relation World := λ w w',
  keychain w' = keychain w ∧ mux w' = mux w ∧ listening w' = listening w ∧
  logs p w w'.

(** No pattern was taken off the multiplexer. *)
Definition mux_grows : relation World := λ w w', mux w ⊆ mux w'.

(** An authorization URL shown or opened carries the state [state]. *)
Definition url_state_is (state : string) (ev : Event) : bool :=
  match ev with
  | EvPrintlnURL u | EvOpenURL u =>
      bool_decide (url.Get (url.Query u) "state" = state)
  | _ => true
  end.

(** The token the keychain holds, when it holds one that decodes. *)
Definition stored (E : Env) (w : World) : option Token :=
  match keychain w !! (serviceName, tokenKey) with
  | Some data =>
      match json_Unmarshal E data with
      | Ok t => Some t
      | Err _ => None
      end
  | None => None
  end.

(** ** Vocabulary of the properties beyond the specification *)

(** What a reader of the credential may add to the trace: the read of the
    keychain and the read of the clock. *)
Definition reads_only (ev : Event) : bool :=
  match ev with
  | EvKeyringGet _ _ | EvNow => true
  | _ => false
  end.

(** A call of package [keyring]. *)
Definition is_keyring_call (ev : Event) : bool :=
  match ev with
  | EvKeyringGet _ _ | EvKeyringSet _ _ _ | EvKeyringDelete _ _ => true
  | _ => false
  end.

(** The clock does not run backwards: a reading after more has happened is
    not earlier. *)
Definition clock_monotone (E : Env) : Prop :=
  ∀ tr tr', tr `prefix_of` tr' → (clock E tr ≤ clock E tr')%Z.

(** An authorization URL handed to the browser. *)
Definition is_open_url (ev : Event) : bool :=
  match ev with EvOpenURL _ => true | _ => false end.

(** What a login leaves of the world it found: the keychain as it was, no
    listener more, the multiplexer with at most [/callback] more, and a
    trace with more events, none of them a call of package [keyring]. *)
Definition login_frame : relation World := λ w w',
  keychain w' = keychain w ∧
  listening w' ⊆ listening w ∧
  mux w ⊆ mux w' ∧ mux w' ⊆ {["/callback"]} ∪ mux w ∧
  logs (λ ev, negb (is_keyring_call ev)) w w'.

(** What follows the launch of the browser in the trace of a login: a
    complaint about the browser, the answer to the callback, the shutdown
    of the server, the exchange and its reading of the clock, the closing
    of the listener. *)
Definition after_browser (ev : Event) : bool :=
  match ev with
  | EvPrintln _ | EvRespond _ _ | EvShutdown | EvRoundTrip _ _ | EvNow
  | EvClose _ => true
  | _ => false
  end.

(** What a login adds to the trace between the binding of its port and
    the wait for the callback, [u] being its authorization URL. *)
Definition login_announcement (port : Z) (u : url.URL) : list Event :=
  [EvHandleFunc "/callback"; EvServe port;
   EvPrintln "Opening browser for authorization...";
   EvPrintln "If the browser doesn't open, visit this URL:";
   EvPrintlnURL u; EvPrintln ""; EvOpenURL u].

(** The redirect URI of a login that listens on [port]. *)
Definition loopback_redirect (port : Z) : string :=
  "http://localhost:" +:+ pretty port +:+ "/callback".

(** The reference environment without a client secret on the disk. *)
Definition env_without_client_secret : Env :=
  {| json_Marshal := Fake.Marshal;
     json_Unmarshal := Fake.Unmarshal;
     keyring_fault := λ _, None;
     clock := λ _, 6000%Z;
     read_file := λ _ _,
       Err (errorString "open client_secret.json: no such file or directory");
     google_ConfigFromJSON := λ _ _, Ok Fake.config;
     provider := λ _ _ _, Ok Fake.reply;
     assigned_port := λ _ _ _, Ok 49152%Z;
     open_browser := λ _ _, None;
     first_arrival := λ _, None |}.

(** What the exchanger adds to the trace: round trips and readings of the
    clock. *)
Definition of_exchanger (ev : Event) : bool :=
  match ev with
  | EvRoundTrip _ _ | EvNow => true
  | _ => false
  end.

(** What a command that only reports may add to the trace: the read of
    the keychain, the read of the clock and lines on the terminal. *)
Definition reports_only (ev : Event) : bool :=
  match ev with
  | EvKeyringGet _ _ | EvNow | EvPrintln _ => true
  | _ => false
  end.

(** * Properties *)

(** ** The program on the reference environment *)

(** With a refreshable token in the keychain and the provider reachable, a
    call after the expiry returns the provider's new access token with the
    old refresh token. *)
Example GetValidToken_refreshes :
  fst (GetValidToken Fake.online "client_secret.json"
         (fresh_process (Fake.keychain_with Fake.token)))
  = Ok {| AccessToken := "tok2"; TokenType := "Bearer";
          oauth2.RefreshToken := "ref1";
          Expiry := (6000 + 3600 * time.Second)%Z |}.
Proof. vm_compute. reflexivity. Qed.

(** Before the expiry the stored token comes back as it is. *)
Example GetValidToken_reuses :
  fst (GetValidToken Fake.early "client_secret.json"
         (fresh_process (Fake.keychain_with Fake.token)))
  = Ok Fake.token.
Proof. vm_compute. reflexivity. Qed.

(** A token without expiry goes through [RefreshToken] and comes back as
    it is, without a round trip: the token source takes it as valid. *)
Example GetValidToken_unexpiring :
  let r := GetValidToken Fake.online "client_secret.json"
             (fresh_process (Fake.keychain_with Fake.unexpiring)) in
  fst r = Ok Fake.unexpiring ∧
  count_events is_refresh_call (trace (snd r)) = 1 ∧
  count_events is_round_trip (trace (snd r)) = 0.
Proof. vm_compute. done. Qed.

(** A keychain backend that is down surfaces as it is. *)
Example GetValidToken_keyring_down :
  fst (GetValidToken (Fake.env_keyring_down 6000%Z) "client_secret.json"
         (fresh_process (Fake.keychain_with Fake.token)))
  = Err (wrapError "could not retrieve token from keyring: "
           (errorString "secret service is not available")).
Proof. vm_compute. reflexivity. Qed.

(** A login with a user who consents, its result and what it leaves
    registered and listening. *)
Example LoginFlow_consenting :
  let r := LoginFlow Fake.consenting "client_secret.json" (fresh_process ∅) in
  fst r = Returned (Ok {| AccessToken := "tok2"; TokenType := "Bearer";
                          oauth2.RefreshToken := "";
                          Expiry := (6000 + 3600 * time.Second)%Z |}) ∧
  mux (snd r) = {[ "/callback" ]} ∧
  listening (snd r) = ∅.
Proof. vm_compute. done. Qed.

(** A login the user denies. *)
Example LoginFlow_denied :
  fst (LoginFlow
         (Fake.env 6000%Z (Ok Fake.reply) 49152%Z
            (Some (1%Z, Request Fake.denied_query)))
         "client_secret.json" (fresh_process ∅))
  = Returned (Err (AuthorizationDenied "access_denied")).
Proof. vm_compute. reflexivity. Qed.

(** ** Running the monad *)

Lemma events_since_app (w w' : World) (evs : list Event) :
  trace w' = trace w ++ evs → events_since w w' = evs.
Proof.
  intros H. unfold events_since. rewrite H. by rewrite drop_app_length.
Qed.

Lemma count_events_app (p : Event → bool) (xs ys : list Event) :
  count_events p (xs ++ ys) = count_events p xs + count_events p ys.
Proof. unfold count_events. by rewrite List.filter_app, length_app. Qed.

Lemma count_events_none (p : Event → bool) (evs : list Event) :
  forallb (λ ev, negb (p ev)) evs = true → count_events p evs = 0.
Proof.
  unfold count_events. induction evs as [|ev evs IH]; [done|].
  cbn. intros [Hev Hevs]%andb_prop. destruct (p ev); [done|]. by apply IH.
Qed.

Lemma count_events_disjoint (p q : Event → bool) (evs : list Event) :
  (∀ ev, q ev = true → p ev = false) →
  forallb q evs = true → count_events p evs = 0.
Proof.
  intros Hpq Hq. apply count_events_none.
  induction evs as [|ev evs IH]; [done|].
  cbn in *. apply andb_prop in Hq as [Hev Hevs].
  by rewrite (Hpq _ Hev), IH.
Qed.

Lemma quiet_no_refresh_call (evs : list Event) :
  forallb quiet evs = true → count_events is_refresh_call evs = 0.
Proof. apply count_events_disjoint. by intros []. Qed.

Lemma quiet_no_store_write (evs : list Event) :
  forallb quiet evs = true → count_events is_store_write evs = 0.
Proof. apply count_events_disjoint. by intros []. Qed.

(** ** The keychain store *)

Section store_runs.

Variable E : Env.

(** The answer of [GetToken] in a world. *)
Lemma GetToken_run (w : World) :
  GetToken E w =
  (match keyring_fault E (trace w) with
   | Some msg =>
       Err (wrapError "could not retrieve token from keyring: "
              (errorString msg))
   | None =>
       match keychain w !! (serviceName, tokenKey) with
       | None => Ok None
       | Some data =>
           match json_Unmarshal E data with
           | Err err => Err (wrapError "could not decode token: " err)
           | Ok token => Ok (Some token)
           end
       end
   end, log (EvKeyringGet serviceName tokenKey) w).
Proof.
  unfold GetToken, keyring_Get. run. cbn.
  destruct (keyring_fault E (trace w)) as [msg|]; [done|].
  destruct (keychain w !! (serviceName, tokenKey)) as [data|]; [|done].
  cbn. by destruct (json_Unmarshal E data).
Qed.

(** [SetToken] writes the encoding of the token into the one slot, or
    fails and leaves the keychain as it was. *)
Lemma SetToken_run (t : Token) (w : World) :
  SetToken E t w =
  match json_Marshal E t with
  | Err err => (Some (wrapError "could not encode token: " err), w)
  | Ok data =>
      match keyring_fault E (trace w) with
      | Some msg =>
          (Some (wrapError "could not store token in keyring: "
                   (errorString msg)),
           log (EvKeyringSet serviceName tokenKey data) w)
      | None =>
          (None,
           {| keychain := <[(serviceName, tokenKey) := data]> (keychain w);
              mux := mux w; listening := listening w;
              trace := trace w ++ [EvKeyringSet serviceName tokenKey data] |})
      end
  end.
Proof.
  unfold SetToken, keyring_Set.
  destruct (json_Marshal E t) as [err|data]; [done|].
  run. cbn. by destruct (keyring_fault E (trace w)).
Qed.

Lemma DeleteToken_run (w : World) :
  DeleteToken E w =
  match keyring_fault E (trace w) with
  | Some msg =>
      (Some (wrapError "could not delete token from keyring: "
               (errorString msg)),
       log (EvKeyringDelete serviceName tokenKey) w)
  | None =>
      (None,
       {| keychain := delete (serviceName, tokenKey) (keychain w);
          mux := mux w; listening := listening w;
          trace := trace w ++ [EvKeyringDelete serviceName tokenKey] |})
  end.
Proof.
  unfold DeleteToken, keyring_Delete. run. cbn.
  destruct (keyring_fault E (trace w)) as [msg|]; [done|].
  destruct (keychain w !! (serviceName, tokenKey)) as [data|] eqn:Hk; cbn;
    [done|].
  by rewrite delete_id.
Qed.

End store_runs.

Lemma Fake_roundtrip (now : time.Time) (reply : result TokenResponse)
    (port : Z) (arrival : option (time.Duration * Arrival)) (t : Token) :
  json_roundtrip (Fake.env now reply port arrival) t.
Proof.
  intros s. cbn. unfold Fake.Marshal, Fake.Unmarshal. intros [= <-].
  assert (Hbits : ∀ p, Fake.unbits (Fake.bits p) = p).
  { induction p as [p IH|p IH|]; cbn; by rewrite ?IH. }
  rewrite Hbits, decode_encode. by destruct t.
Qed.

Lemma Fake_keyring_up (now : time.Time) (reply : result TokenResponse)
    (port : Z) (arrival : option (time.Duration * Arrival)) :
  keyring_up (Fake.env now reply port arrival).
Proof. by intros tr. Qed.



(** C9. [DeleteToken] is idempotent: where the keychain is reachable it
    succeeds whether or not a token is stored, it changes nothing when none
    is, a second [DeleteToken] succeeds as well and changes nothing, and the
    [GetToken] that follows reports no token and no error. *)
Theorem DeleteToken_idempotent (E : Env) (w : World) :
  keyring_up E →
  ∃ w1 w2 w3,
    DeleteToken E w = (None, w1) ∧
    (keychain w !! (serviceName, tokenKey) = None →
     keychain w1 = keychain w) ∧
    DeleteToken E w1 = (None, w2) ∧
    keychain w2 = keychain w1 ∧
    GetToken E w1 = (Ok None, w3).
Proof.
  intros Hup.
  pose proof (DeleteToken_run E w) as H1. rewrite Hup in H1.
  eexists _, _, _. split; [exact H1|]. split; [apply delete_id|].
  rewrite DeleteToken_run, GetToken_run, !Hup. cbn.
  rewrite lookup_delete_eq. repeat split.
  apply delete_id, lookup_delete_eq.
Qed.

Lemma DeleteToken_idempotent_witness :
  ∃ w1 w2 w3,
    DeleteToken Fake.offline (fresh_process ∅) = (None, w1) ∧
    ((∅ : gmap (string * string) string) !! (serviceName, tokenKey) = None →
     keychain w1 = ∅) ∧
    DeleteToken Fake.offline w1 = (None, w2) ∧
    keychain w2 = keychain w1 ∧
    GetToken Fake.offline w1 = (Ok None, w3).
Proof.
  apply (DeleteToken_idempotent Fake.offline (fresh_process ∅)).
  apply Fake_keyring_up.
Defined.

(** ** The exchanger and the loading of the client secret are quiet *)

#[global] Instance logs_preorder (p : Event → bool) : PreOrder (logs p).
Proof.
  split.
  - intros w. exists []. by rewrite app_nil_r.
  - intros w1 w2 w3 (evs & Htr & Hevs) (evs' & Htr' & Hevs').
    exists (evs ++ evs'). rewrite Htr', Htr, app_assoc. split; [done|].
    by rewrite forallb_app, Hevs, Hevs'.
Qed.

#[global] Instance only_logs_preorder (p : Event → bool) :
  PreOrder (only_logs p).
Proof.
  split.
  - intros w. by repeat split.
  - intros w1 w2 w3 (Hkc & Hmux & Hl & Hlogs) (Hkc' & Hmux' & Hl' & Hlogs').
    repeat split; try congruence. by etrans.
Qed.

#[global] Instance mux_grows_preorder : PreOrder mux_grows.
Proof. split; unfold mux_grows; [by intros w|intros w1 w2 w3; set_solver]. Qed.

Section respects.

Context (R : relation World) `{!PreOrder R}.

Lemma respects_ret {A : Type} (a : A) : respects R (mret a).
Proof. by intros w a' w' [= <- <-]. Qed.

Lemma respects_bind {A B : Type} (m : M A) (k : A → M B) :
  respects R m → (∀ a, respects R (k a)) → respects R (m ≫= k).
Proof.
  intros Hm Hk w b w'. unfold mbind, M_bind.
  destruct (m w) as [a w1] eqn:Hrun. intros Hrun'.
  etrans; [by eapply Hm|by eapply Hk].
Qed.

Lemma respects_get_world : respects R get_world.
Proof. by intros w a w' [= <- <-]. Qed.

End respects.

Lemma respects_weaken (R R' : relation World) {A : Type} (m : M A) :
  (∀ w w', R w w' → R' w w') → respects R m → respects R' m.
Proof. intros HR Hm w a w' Hrun. by eapply HR, Hm. Qed.

Lemma logs_emit (p : Event → bool) (ev : Event) :
  p ev = true → respects (logs p) (emit ev).
Proof. intros Hev w a w' [= <- <-]. exists [ev]. cbn. by rewrite Hev. Qed.

Lemma only_logs_emit (p : Event → bool) (ev : Event) :
  p ev = true → respects (only_logs p) (emit ev).
Proof.
  intros Hev w a w' Hrun. repeat split; try by injection Hrun as <- <-.
  by eapply logs_emit.
Qed.

Lemma mux_grows_emit (ev : Event) : respects mux_grows (emit ev).
Proof. intros w a w' [= <- <-]. by unfold mux_grows. Qed.

Lemma logs_set_keychain (p : Event → bool) kc :
  respects (logs p) (set_keychain kc).
Proof. intros w a w' [= <- <-]. exists []. by rewrite app_nil_r. Qed.

Lemma logs_set_mux (p : Event → bool) m : respects (logs p) (set_mux m).
Proof. intros w a w' [= <- <-]. exists []. by rewrite app_nil_r. Qed.

Lemma logs_set_listening (p : Event → bool) l :
  respects (logs p) (set_listening l).
Proof. intros w a w' [= <- <-]. exists []. by rewrite app_nil_r. Qed.

Lemma mux_grows_set_keychain kc : respects mux_grows (set_keychain kc).
Proof. intros w a w' [= <- <-]. by unfold mux_grows. Qed.

Lemma mux_grows_set_listening l : respects mux_grows (set_listening l).
Proof. intros w a w' [= <- <-]. by unfold mux_grows. Qed.

Lemma only_logs_weaken (p q : Event → bool) (w w' : World) :
  (∀ ev, p ev = true → q ev = true) → only_logs p w w' → logs q w w'.
Proof.
  intros Hpq (_ & _ & _ & evs & Htr & Hevs). exists evs. split; [done|].
  induction evs as [|ev evs IH] in Hevs |- *; [done|].
  cbn in *. apply andb_prop in Hevs as [Hev Hevs].
  by rewrite (Hpq _ Hev), IH.
Qed.

Create HintDb respects.

#[global] Hint Resolve logs_set_keychain logs_set_mux logs_set_listening
  mux_grows_emit mux_grows_set_keychain mux_grows_set_listening : respects.

(** Follows the structure of a computation built from binds, emits and
    case distinctions. *)
Ltac respects_step :=
  first
    [ solve [eauto with respects]
    | apply respects_ret; tc_solve
    | apply respects_get_world; tc_solve
    | apply logs_emit; reflexivity
    | apply only_logs_emit; reflexivity
    | apply respects_bind; [tc_solve| |intros ?]
    | case_match
    | case_decide ].

Section quiet_runs.

Variable E : Env.

Lemma time_Now_run (w : World) :
  time_Now E w = (clock E (trace w), log EvNow w).
Proof. done. Qed.

Lemma time_Now_quiet : respects (only_logs quiet) (time_Now E).
Proof. unfold time_Now. repeat respects_step. Qed.

Lemma LoadClientConfig_run (path : string) (w : World) :
  LoadClientConfig E path w =
  (match read_file E (trace w) path with
   | Err err => Err (wrapError "could not read client secret file: " err)
   | Ok data =>
       match google_ConfigFromJSON E data searchConsoleScope with
       | Err err => Err (wrapError "could not parse client secret: " err)
       | Ok config => Ok config
       end
   end, log (EvReadFile path) w).
Proof.
  unfold LoadClientConfig, os_ReadFile. run. cbn.
  destruct (read_file E (trace w) path) as [err|data]; [done|].
  by destruct (google_ConfigFromJSON E data searchConsoleScope).
Qed.

Lemma LoadClientConfig_quiet (path : string) :
  respects (only_logs quiet) (LoadClientConfig E path).
Proof. unfold LoadClientConfig, os_ReadFile. repeat respects_step. Qed.

Lemma retrieveToken_quiet (conf : Config) (form : list (string * string)) :
  respects (only_logs quiet) (retrieveToken E conf form).
Proof.
  unfold retrieveToken. pose proof time_Now_quiet. repeat respects_step.
Qed.

Lemma TokenSource_Token_quiet (conf : Config) (t : Token) :
  respects (only_logs quiet) (TokenSource_Token E conf t).
Proof.
  unfold TokenSource_Token, Token_Valid, Token_expired, tokenRefresher_Token.
  pose proof time_Now_quiet. pose proof retrieveToken_quiet.
  repeat respects_step.
Qed.

End quiet_runs.

#[global] Hint Resolve time_Now_quiet LoadClientConfig_quiet
  retrieveToken_quiet TokenSource_Token_quiet : respects.

(** ** The token lifecycle *)

Section lifecycle_runs.

Variable E : Env.

(** [RefreshToken] records its entry, then is quiet. *)
Lemma RefreshToken_trace (path : string) (token : Token) (w : World)
    (r : result Token) (w' : World) :
  RefreshToken E path token w = (r, w') →
  keychain w' = keychain w ∧
  ∃ evs, trace w' = trace w ++ EvRefreshToken path token :: evs ∧
         forallb quiet evs = true.
Proof.
  unfold RefreshToken. unfold mbind at 1, M_bind at 1, emit. intros Hrun.
  assert (Hq : respects (only_logs quiet)
    (r ← LoadClientConfig E path;
     match r with
     | Err err => mret (Err err)
     | Ok config =>
         r ← TokenSource_Token E config token;
         match r with
         | Err err => mret (Err (wrapError "could not refresh token: " err))
         | Ok newToken => mret (Ok newToken)
         end
     end)).
  { repeat respects_step. }
  destruct (Hq _ _ _ Hrun) as (Hkc & _ & _ & evs & Htr & Hevs).
  split; [done|]. exists evs. cbn in Htr. by rewrite Htr, <- app_assoc.
Qed.

(** [GetValidToken], step by step. *)
Lemma GetValidToken_run (path : string) (w : World) :
  GetValidToken E path w =
  let w1 := log (EvKeyringGet serviceName tokenKey) w in
  match fst (GetToken E w) with
  | Err err => (Err err, w1)
  | Ok None => (Err NotAuthenticated, w1)
  | Ok (Some token) =>
      let w2 := log EvNow w1 in
      if time.Before (Expiry token) (clock E (trace w1)) then
        match RefreshToken E path token w2 with
        | (Err err, w3) => (Err err, w3)
        | (Ok token', w3) =>
            match SetToken E token' w3 with
            | (Some err, w4) => (Err err, w4)
            | (None, w4) => (Ok token', w4)
            end
        end
      else (Ok token, w2)
  end.
Proof.
  unfold GetValidToken. unfold mbind at 1, M_bind at 1.
  rewrite GetToken_run. cbn [fst].
  destruct (keyring_fault E (trace w)); [done|].
  destruct (keychain w !! (serviceName, tokenKey)) as [data|]; [|done].
  destruct (json_Unmarshal E data) as [err|token]; [done|].
  unfold mbind at 1, M_bind at 1. rewrite time_Now_run.
  destruct (time.Before _ _); [|done].
  unfold mbind at 1, M_bind at 1.
  destruct (RefreshToken E path token _) as [[err|token'] w3]; [done|].
  unfold mbind at 1, M_bind at 1.
  by destruct (SetToken E token' w3) as [[err|] w4].
Qed.

End lifecycle_runs.

Lemma log_trace (ev : Event) (w : World) : trace (log ev w) = trace w ++ [ev].
Proof. done. Qed.

(** C1. [GetValidToken] follows its algorithm.  With nothing stored it
    fails with [NotAuthenticated].  With a stored token whose expiry is
    before the clock's reading it enters [RefreshToken] exactly once; a token
    it then returns is the one [RefreshToken] gave, and its encoding was
    written to the keychain as the last step before the return; it does
    return whenever the refresh succeeds and the store takes the token.
    With a stored token whose expiry is not before the reading it returns
    that token, having done nothing but read the keychain and the clock: no
    refresh call, no round trip, no write. *)
Theorem GetValidToken_algorithm (E : Env) (path : string) (w : World) :
  let w1 := log (EvKeyringGet serviceName tokenKey) w in
  let w2 := log EvNow w1 in
  (fst (GetToken E w) = Ok None →
   GetValidToken E path w = (Err NotAuthenticated, w1)) ∧
  (∀ token,
     fst (GetToken E w) = Ok (Some token) →
     time.Before (Expiry token) (clock E (trace w1)) = true →
     ∃ r wf,
       GetValidToken E path w = (r, wf) ∧
       count_events is_refresh_call (events_since w wf) = 1 ∧
       (∀ token', r = Ok token' →
          ∃ w3 data,
            RefreshToken E path token w2 = (Ok token', w3) ∧
            json_Marshal E token' = Ok data ∧
            keychain wf !! (serviceName, tokenKey) = Some data ∧
            last (trace wf) = Some (EvKeyringSet serviceName tokenKey data)) ∧
       (∀ token' w3 w4,
          RefreshToken E path token w2 = (Ok token', w3) →
          SetToken E token' w3 = (None, w4) →
          r = Ok token' ∧ wf = w4)) ∧
  (∀ token,
     fst (GetToken E w) = Ok (Some token) →
     time.Before (Expiry token) (clock E (trace w1)) = false →
     GetValidToken E path w = (Ok token, w2) ∧
     keychain w2 = keychain w ∧
     events_since w w2 = [EvKeyringGet serviceName tokenKey; EvNow] ∧
     count_events is_refresh_call (events_since w w2) = 0 ∧
     count_events is_round_trip (events_since w w2) = 0).
Proof.
  intros w1 w2. rewrite GetValidToken_run. cbv zeta. fold w1. fold w2.
  split; [by intros ->|]. split.
  - intros token -> ->.
    destruct (RefreshToken E path token w2) as [[err|token'] w3] eqn:Hrefresh.
    { destruct (RefreshToken_trace _ _ _ _ _ _ Hrefresh)
        as (_ & evs & Htr & Hq).
      eexists _, _. split; [done|]. split; [|split; [done|]].
      - erewrite events_since_app; last first.
        { rewrite Htr. unfold w2, w1. rewrite !log_trace, <- !app_assoc. done. }
        cbn. change (S (count_events is_refresh_call evs) = 1).
        by rewrite quiet_no_refresh_call.
      - intros ??? [=]. }
    destruct (RefreshToken_trace _ _ _ _ _ _ Hrefresh) as (_ & evs & Htr & Hq).
    assert (Hcount : ∀ w4 evs', trace w4 = trace w3 ++ evs' →
              forallb quiet evs' = true
              ∨ (∃ d, evs' = [EvKeyringSet serviceName tokenKey d]) →
              count_events is_refresh_call (events_since w w4) = 1).
    { intros w4 evs' Htr' Hevs'. erewrite events_since_app; last first.
      { rewrite Htr', Htr. unfold w2, w1.
        by rewrite !log_trace, <- !app_assoc. }
      cbn. change (S (count_events is_refresh_call (evs ++ evs')) = 1).
      rewrite count_events_app, (quiet_no_refresh_call evs) by done.
      destruct Hevs' as [Hq'|[d ->]]; [|done].
      by rewrite quiet_no_refresh_call. }
    rewrite SetToken_run.
    destruct (json_Marshal E token') as [err|data] eqn:Hdata.
    { eexists _, _. split; [done|]. split; [|split; [done|]].
      - apply (Hcount w3 []); [by rewrite app_nil_r|by left].
      - intros ??? [= <- <-]. rewrite SetToken_run, Hdata. done. }
    destruct (keyring_fault E (trace w3)) as [msg|] eqn:Hfault.
    { eexists _, _. split; [done|]. split; [|split; [done|]].
      - eapply (Hcount _ [_]); [done|]. right. eauto.
      - intros ??? [= <- <-]. rewrite SetToken_run, Hdata, Hfault. done. }
    eexists _, _. split; [done|]. split; [|split].
    + eapply (Hcount _ [_]); [done|]. right. eauto.
    + intros ? [= <-]. eexists _, _. split; [done|]. split; [done|]. cbn.
      split; [apply lookup_insert_eq|]. by rewrite last_snoc.
    + intros ??? [= <- <-]. rewrite SetToken_run, Hdata, Hfault.
      by intros [= <-].
  - intros token -> ->.
    assert (events_since w w2 = [EvKeyringGet serviceName tokenKey; EvNow])
      as ->; [|done].
    apply events_since_app. unfold w2, w1. by rewrite !log_trace, <- app_assoc.
Qed.

Lemma GetValidToken_algorithm_witness :
  GetValidToken Fake.offline "client_secret.json" (fresh_process ∅)
    = (Err NotAuthenticated,
       log (EvKeyringGet serviceName tokenKey) (fresh_process ∅)) ∧
  (∃ r wf,
     GetValidToken Fake.online "client_secret.json"
       (fresh_process (Fake.keychain_with Fake.token)) = (r, wf) ∧
     count_events is_refresh_call
       (events_since (fresh_process (Fake.keychain_with Fake.token)) wf)
     = 1) ∧
  fst (GetValidToken Fake.early "client_secret.json"
         (fresh_process (Fake.keychain_with Fake.token))) = Ok Fake.token.
Proof.
  split; [|split].
  - apply (GetValidToken_algorithm Fake.offline "client_secret.json"
             (fresh_process ∅)).
    vm_compute. reflexivity.
  - destruct (GetValidToken_algorithm Fake.online "client_secret.json"
                (fresh_process (Fake.keychain_with Fake.token)))
      as (_ & Hexpired & _).
    destruct (Hexpired Fake.token) as (r & wf & Hrun & Hcount & _).
    + vm_compute. reflexivity.
    + vm_compute. reflexivity.
    + by exists r, wf.
  - destruct (GetValidToken_algorithm Fake.early "client_secret.json"
                (fresh_process (Fake.keychain_with Fake.token)))
      as (_ & _ & Hvalid).
    destruct (Hvalid Fake.token) as (Hrun & _).
    + vm_compute. reflexivity.
    + vm_compute. reflexivity.
    + by rewrite Hrun.
Defined.

(** C2. When the exchanger fails in the refresh of an expired stored
    token, [GetValidToken] fails with [RefreshFailed] around the cause, which
    is another error than [NotAuthenticated] and reads differently; the
    keychain is as it was, and the run wrote nothing to it: no
    [keyring.Set], no [keyring.Delete]. *)
Theorem refresh_failure_keeps_record (E : Env) (path : string) (w : World)
    (token : Token) (config : Config) (cause : error) (w3 w4 : World) :
  let w1 := log (EvKeyringGet serviceName tokenKey) w in
  let w2 := log EvNow w1 in
  fst (GetToken E w) = Ok (Some token) →
  time.Before (Expiry token) (clock E (trace w1)) = true →
  LoadClientConfig E path (log (EvRefreshToken path token) w2)
    = (Ok config, w3) →
  TokenSource_Token E config token w3 = (Err cause, w4) →
  GetValidToken E path w = (Err (RefreshFailed cause), w4) ∧
  RefreshFailed cause ≠ NotAuthenticated ∧
  Error (RefreshFailed cause) ≠ Error NotAuthenticated ∧
  keychain w4 = keychain w ∧
  stored E w4 = Some token ∧
  count_events is_store_write (events_since w w4) = 0.
Proof.
  intros w1 w2 Hget Hexpired Hconfig Hsource.
  assert (Hrefresh :
    RefreshToken E path token w2 = (Err (RefreshFailed cause), w4)).
  { unfold RefreshToken. unfold mbind at 1, M_bind at 1, emit.
    unfold mbind at 1, M_bind at 1. rewrite Hconfig.
    unfold mbind at 1, M_bind at 1. by rewrite Hsource. }
  rewrite GetValidToken_run. cbv zeta. fold w1. fold w2.
  rewrite Hget, Hexpired, Hrefresh.
  destruct (RefreshToken_trace _ _ _ _ _ _ Hrefresh) as (Hkc & evs & Htr & Hq).
  assert (Hkeep : keychain w4 = keychain w) by (by rewrite Hkc).
  repeat split; try done.
  - unfold stored. rewrite Hkeep. rewrite GetToken_run in Hget. cbn in Hget.
    destruct (keyring_fault E (trace w)); [done|].
    destruct (keychain w !! (serviceName, tokenKey)) as [data|]; [|done].
    destruct (json_Unmarshal E data); [done|]. by inversion Hget.
  - erewrite events_since_app; last first.
    { rewrite Htr. unfold w2, w1. rewrite !log_trace, <- !app_assoc. done. }
    cbn. change (count_events is_store_write evs = 0).
    by apply quiet_no_store_write.
Qed.

Lemma refresh_failure_keeps_record_witness :
  ∃ w4,
    GetValidToken Fake.offline "client_secret.json"
      (fresh_process (Fake.keychain_with Fake.token))
    = (Err (RefreshFailed (errorString "dial tcp: no route to host")), w4) ∧
    keychain w4 = Fake.keychain_with Fake.token ∧
    stored Fake.offline w4 = Some Fake.token ∧
    count_events is_store_write
      (events_since (fresh_process (Fake.keychain_with Fake.token)) w4) = 0.
Proof.
  eexists.
  edestruct (refresh_failure_keeps_record Fake.offline "client_secret.json"
               (fresh_process (Fake.keychain_with Fake.token)) Fake.token)
    as (Hrun & _ & _ & Hkeep & Hstored & Hcount).
  - vm_compute. reflexivity.
  - vm_compute. reflexivity.
  - vm_compute. reflexivity.
  - vm_compute. reflexivity.
  - split; [exact Hrun|]. split; [exact Hkeep|]. split; [exact Hstored|].
    exact Hcount.
Defined.

(** ** What a refresh does to the refresh token *)

Section refresh_token.

Variable E : Env.

(** A token [retrieveToken] returns came with a reply of the provider to
    the one round trip made, and carries the reply's refresh token, or the
    form's where the reply has none. *)
Lemma retrieveToken_ok (conf : Config) (form : list (string * string))
    (w : World) (token' : Token) (w' : World) :
  retrieveToken E conf form w = (Ok token', w') →
  ∃ reply rest,
    provider E (trace w) conf form = Ok reply ∧
    trace w' = trace w ++ EvRoundTrip conf form :: rest ∧
    oauth2.RefreshToken token' =
      (if decide (refresh_token reply = "")
       then form_Get form "refresh_token" else refresh_token reply).
Proof.
  unfold retrieveToken. run. cbn.
  destruct (provider E (trace w) conf form) as [err|reply]; [done|].
  intros Hrun. exists reply.
  destruct (decide (expires_in reply = 0%Z));
    destruct (decide (access_token reply = "")); try done;
    cbn in Hrun; injection Hrun as <- <-; cbn.
  - exists []. done.
  - exists [EvNow]. by rewrite <- app_assoc.
Qed.

(** A token the token source returns is the one it was given, or came
    from a round trip and carries the reply's refresh token, or the given
    token's where the reply has none. *)
Lemma TokenSource_Token_ok (conf : Config) (t : Token) (w : World)
    (token' : Token) (w' : World) :
  TokenSource_Token E conf t w = (Ok token', w') →
  token' = t ∨
  ∃ evs form reply rest,
    provider E (trace w ++ evs) conf form = Ok reply ∧
    trace w' = (trace w ++ evs) ++ EvRoundTrip conf form :: rest ∧
    oauth2.RefreshToken token' =
      (if decide (refresh_token reply = "")
       then oauth2.RefreshToken t else refresh_token reply).
Proof.
  unfold TokenSource_Token, Token_Valid, Token_expired, tokenRefresher_Token.
  destruct (decide (AccessToken t = "")) as [Hat|Hat].
  - unfold mbind at 1, M_bind at 1, mret at 1, M_ret at 1.
    destruct (decide (oauth2.RefreshToken t = "")); [done|].
    intros (reply & rest & Hreply & Htr & Hrt)%retrieveToken_ok.
    right. eexists [], _, reply, rest. rewrite app_nil_r. cbn in Hrt. eauto.
  - destruct (time.IsZero (Expiry t)).
    { run. cbn. intros [= <- <-]. by left. }
    unfold time_Now. run. cbn.
    destruct (time.Before _ (clock E (trace w))); cbn;
      [|intros [= <- <-]; by left].
    destruct (decide (oauth2.RefreshToken t = "")); [done|].
    intros (reply & rest & Hreply & Htr & Hrt)%retrieveToken_ok.
    right. eexists [EvNow], _, reply, rest. cbn in Hrt. eauto.
Qed.

End refresh_token.

(** C4. A refresh by [GetValidToken] does not drop the refresh token: when
    it refreshed an expired stored token and returned, and the provider's
    reply in that run (if a round trip was made) supplied no refresh token,
    the token now in the keychain is the one returned (which
    [encoding/json] gives back) and carries the refresh token of the token
    stored before. *)
Theorem refresh_keeps_refresh_token (E : Env) (path : string) (w wf : World)
    (token token' : Token) :
  let w1 := log (EvKeyringGet serviceName tokenKey) w in
  json_roundtrip E token' →
  fst (GetToken E w) = Ok (Some token) →
  time.Before (Expiry token) (clock E (trace w1)) = true →
  GetValidToken E path w = (Ok token', wf) →
  (∀ evs config form rest reply,
     trace wf = (trace w ++ evs) ++ EvRoundTrip config form :: rest →
     provider E (trace w ++ evs) config form = Ok reply →
     refresh_token reply = "") →
  stored E wf = Some token' ∧
  oauth2.RefreshToken token' = oauth2.RefreshToken token.
Proof.
  intros w1 Hcodec Hget Hexpired Hrun Hreply.
  rewrite GetValidToken_run in Hrun. cbv zeta in Hrun. fold w1 in Hrun.
  rewrite Hget, Hexpired in Hrun.
  destruct (RefreshToken E path token (log EvNow w1)) as [[err|t'] w3]
    eqn:Hrefresh; [done|].
  rewrite SetToken_run in Hrun.
  destruct (json_Marshal E t') as [err|data] eqn:Hdata; [done|].
  destruct (keyring_fault E (trace w3)); [done|].
  injection Hrun as -> <-. split.
  { unfold stored. cbn. rewrite lookup_insert_eq.
    by rewrite (Hcodec _ Hdata). }
  revert Hrefresh. unfold RefreshToken.
  unfold mbind at 1, M_bind at 1, emit. unfold mbind at 1, M_bind at 1.
  rewrite LoadClientConfig_run.
  destruct (read_file E _ path) as [err|secret]; [done|].
  destruct (google_ConfigFromJSON E secret searchConsoleScope) as [err|config];
    [done|].
  unfold mbind at 1, M_bind at 1.
  destruct (TokenSource_Token E config token _) as [[err|t''] w3'] eqn:Hsource;
    [done|].
  intros [= -> ->].
  apply TokenSource_Token_ok in Hsource
    as [->|(evs & form & reply & rest & Hprov & Htr & Hrt)]; [done|].
  rewrite Hrt. cbn in Htr, Hprov. rewrite <- !app_assoc in Hprov.
  rewrite decide_True; [done|].
  eapply (Hreply _ config form
            (rest ++ [EvKeyringSet serviceName tokenKey data]));
    [|exact Hprov].
  cbn. rewrite Htr, <- !app_assoc. done.
Qed.

Lemma refresh_keeps_refresh_token_witness :
  ∃ token' wf,
    GetValidToken Fake.online "client_secret.json"
      (fresh_process (Fake.keychain_with Fake.token)) = (Ok token', wf) ∧
    stored Fake.online wf = Some token' ∧
    AccessToken token' = "tok2" ∧
    oauth2.RefreshToken token' = "ref1".
Proof.
  eexists _, _. split; [vm_compute; reflexivity|].
  edestruct (refresh_keeps_refresh_token Fake.online "client_secret.json"
               (fresh_process (Fake.keychain_with Fake.token)))
    as (Hstored & Hkept).
  - apply Fake_roundtrip.
  - vm_compute. reflexivity.
  - vm_compute. reflexivity.
  - vm_compute. reflexivity.
  - intros evs config form rest reply _. by intros [= <-].
  - split; [exact Hstored|]. split; [reflexivity|exact Hkept].
Defined.

(** ** Tokens without expiry *)

Lemma GetTokenInfo_run (E : Env) (w : World) :
  GetTokenInfo E w =
  let w1 := log (EvKeyringGet serviceName tokenKey) w in
  match fst (GetToken E w) with
  | Err err => (Err err, w1)
  | Ok None =>
      (Ok {| TokenInfo.HasToken := false; TokenInfo.Expiry := time.zero;
             TokenInfo.IsExpired := false; TokenInfo.TokenType := "" |}, w1)
  | Ok (Some token) =>
      (Ok {| TokenInfo.HasToken := true;
             TokenInfo.Expiry := Expiry token;
             TokenInfo.IsExpired :=
               time.Before (Expiry token) (clock E (trace w1));
             TokenInfo.TokenType := TokenType token |}, log EvNow w1)
  end.
Proof.
  unfold GetTokenInfo. unfold mbind at 1, M_bind at 1.
  rewrite GetToken_run. cbn [fst].
  destruct (keyring_fault E (trace w)); [done|].
  destruct (keychain w !! (serviceName, tokenKey)) as [data|]; [|done].
  by destruct (json_Unmarshal E data).
Qed.



(** ** The callback *)

Section login_runs.

Variable E : Env.

Lemma callbackHandler_run (query : url.Values) (w : World) :
  callbackHandler query w =
  if decide (url.Get query "code" = "") then
    let reason := if decide (url.Get query "error" = "")
                  then "no authorization code received"
                  else url.Get query "error" in
    (OnErrChan (AuthorizationDenied reason),
     log (EvRespond StatusBadRequest (failurePage reason)) w)
  else
    (OnCodeChan (url.Get query "code"), log (EvRespond StatusOK successPage) w).
Proof. unfold callbackHandler. by case_decide. Qed.

Lemma await_run (w : World) :
  await E w =
  match first_arrival E (trace w) with
  | Some (delay, arrival) =>
      if decide (delay < loginDeadline)%Z then
        match arrival with
        | Request query =>
            let '(msg, w1) := callbackHandler query w in
            (match msg with
             | OnCodeChan code => Completed code
             | OnErrChan err => Failed err
             end, w1)
        | ServeFailed err =>
            (Failed (wrapError "callback server error: " err), w)
        end
      else (TimedOut, w)
  | None => (TimedOut, w)
  end.
Proof.
  unfold await. run. cbn.
  destruct (first_arrival E _) as [[delay [query|err]]|]; try done;
    case_decide; try done.
  by destruct (callbackHandler query _) as [[code|err] w1].
Qed.

End login_runs.

(** The page of success tells the user where to go on. *)
Lemma successPage_says_return :
  ∃ before after,
    successPage = before +:+ "return to the terminal" +:+ after.
Proof.
  exists ("<html><body>" +:+ LF +:+ TAB +:+ TAB +:+ TAB +:+
          "<h1>Authorization Successful!</h1>" +:+ LF +:+
          TAB +:+ TAB +:+ TAB +:+ "<p>You can close this window and "),
         (".</p>" +:+ LF +:+ TAB +:+ TAB +:+ TAB +:+
          "<script>window.close();</script>" +:+ LF +:+
          TAB +:+ TAB +:+ "</body></html>").
  reflexivity.
Qed.

(** C3, as stated, fails on a request whose [code] parameter is present
    and empty ([/callback?code=]): the handler answers 400 and the attempt
    fails with "no authorization code received". *)
Lemma present_empty_code_is_refused :
  Fake.empty_code !! "code" = Some [""] ∧
  await (Fake.env 6000%Z (Ok Fake.reply) 49152%Z
           (Some (1%Z, Request Fake.empty_code))) (fresh_process ∅)
  = (Failed (AuthorizationDenied "no authorization code received"),
     {| keychain := ∅; mux := ∅; listening := ∅;
        trace := [EvRespond 400%Z
                    (failurePage "no authorization code received")] |}).
Proof. split; vm_compute; reflexivity. Qed.

(** C3, amended. For the request that reaches the waiting attempt on the
    callback route, before the deadline: a [code] with a value that is not
    empty completes the attempt with that code, answered by status 200 and
    the page that says to return to the terminal; without it (absent or
    empty) an [error] with a value that is not empty fails the attempt with
    that reason, answered by status 400 and the page around the reason;
    with neither the attempt fails with "no authorization code received",
    answered by status 400. *)
Theorem callback_resolves_attempt (E : Env) (w : World)
    (delay : time.Duration) (query : url.Values) :
  first_arrival E (trace w) = Some (delay, Request query) →
  (delay < loginDeadline)%Z →
  (url.Get query "code" ≠ "" →
   await E w = (Completed (url.Get query "code"),
                log (EvRespond 200%Z successPage) w) ∧
   ∃ before after,
     successPage = before +:+ "return to the terminal" +:+ after) ∧
  (url.Get query "code" = "" → url.Get query "error" ≠ "" →
   await E w =
     (Failed (AuthorizationDenied (url.Get query "error")),
      log (EvRespond 400%Z
             ("<html><body><h1>Authorization Failed</h1><p>"
              +:+ url.Get query "error" +:+ "</p></body></html>")) w)) ∧
  (url.Get query "code" = "" → url.Get query "error" = "" →
   await E w =
     (Failed (AuthorizationDenied "no authorization code received"),
      log (EvRespond 400%Z
             ("<html><body><h1>Authorization Failed</h1><p>"
              +:+ "no authorization code received"
              +:+ "</p></body></html>")) w)).
Proof.
  intros Harrival Hdelay. rewrite await_run.
  rewrite Harrival, decide_True, callbackHandler_run by done.
  split; [|split].
  - intros Hcode. rewrite decide_False by done.
    split; [done|apply successPage_says_return].
  - intros Hcode Herror. by rewrite decide_True, decide_False.
  - intros Hcode Herror. by rewrite !decide_True.
Qed.

Lemma callback_resolves_attempt_witness :
  fst (await (Fake.env 6000%Z (Ok Fake.reply) 49152%Z
               (Some (1%Z, Request Fake.code_query)))
         (fresh_process ∅)) = Completed "AUTH123" ∧
  fst (await (Fake.env 6000%Z (Ok Fake.reply) 49152%Z
               (Some (1%Z, Request Fake.denied_query)))
         (fresh_process ∅)) = Failed (AuthorizationDenied "access_denied") ∧
  fst (await (Fake.env 6000%Z (Ok Fake.reply) 49152%Z
               (Some (1%Z, Request ∅)))
         (fresh_process ∅))
    = Failed (AuthorizationDenied "no authorization code received").
Proof.
  split; [|split].
  - destruct (callback_resolves_attempt
                (Fake.env 6000%Z (Ok Fake.reply) 49152%Z
                   (Some (1%Z, Request Fake.code_query)))
                (fresh_process ∅) 1%Z Fake.code_query)
      as (Hcode & _); [reflexivity|reflexivity|].
    destruct Hcode as [-> _]; [vm_compute; discriminate|reflexivity].
  - destruct (callback_resolves_attempt
                (Fake.env 6000%Z (Ok Fake.reply) 49152%Z
                   (Some (1%Z, Request Fake.denied_query)))
                (fresh_process ∅) 1%Z Fake.denied_query)
      as (_ & Herror & _); [reflexivity|reflexivity|].
    rewrite Herror; [reflexivity|vm_compute; reflexivity
                    |vm_compute; discriminate].
  - destruct (callback_resolves_attempt
                (Fake.env 6000%Z (Ok Fake.reply) 49152%Z
                   (Some (1%Z, Request ∅)))
                (fresh_process ∅) 1%Z ∅)
      as (_ & _ & Hnone); [reflexivity|reflexivity|].
    rewrite Hnone; reflexivity.
Defined.

(** ** The authorization URL *)

(** Whatever the client and the options [LoginFlow] passes, the URL carries
    the state it was called with. *)
Lemma AuthCodeURL_state (c : Config) (state : string) :
  state ≠ "" →
  url.Get (url.Query (AuthCodeURL c state [AccessTypeOffline; ApprovalForce]))
    "state" = state.
Proof.
  intros Hstate. unfold AuthCodeURL, url.Get, url.Set_. cbn.
  rewrite !lookup_insert_ne by done.
  by rewrite decide_False, lookup_insert_eq.
Qed.

Section login_logs.

Variable E : Env.

Let ok := url_state_is "state".

Lemma quiet_url_state (ev : Event) : quiet ev = true → ok ev = true.
Proof. by destruct ev. Qed.

Lemma LoadClientConfig_logs (path : string) :
  respects (logs ok) (LoadClientConfig E path).
Proof.
  eapply respects_weaken; [|apply LoadClientConfig_quiet].
  intros w w'. apply only_logs_weaken, quiet_url_state.
Qed.

Lemma Exchange_logs (conf : Config) (code : string) :
  respects (logs ok) (Exchange E conf code).
Proof.
  eapply respects_weaken; [|apply retrieveToken_quiet].
  intros w w'. apply only_logs_weaken, quiet_url_state.
Qed.

Lemma callbackHandler_logs (query : url.Values) :
  respects (logs ok) (callbackHandler query).
Proof. unfold callbackHandler. repeat respects_step. Qed.

Lemma await_logs : respects (logs ok) (await E).
Proof.
  unfold await. pose proof callbackHandler_logs. repeat respects_step.
Qed.

Lemma LoginFlow_serve_logs (config : Config) (port : Z) :
  respects (logs ok) (LoginFlow_serve E config port).
Proof.
  unfold LoginFlow_serve, http_HandleFunc, browser_OpenURL, server_Shutdown.
  pose proof await_logs. pose proof Exchange_logs.
  assert (Hurl : ∀ c, bool_decide
    (url.Get (url.Query (AuthCodeURL c "state"
                           [AccessTypeOffline; ApprovalForce])) "state"
     = "state") = true).
  { intros c. by rewrite bool_decide_eq_true, AuthCodeURL_state. }
  repeat first [ apply logs_emit; apply Hurl | respects_step ].
Qed.

Lemma LoginFlow_logs (path : string) :
  respects (logs ok) (LoginFlow E path).
Proof.
  unfold LoginFlow, net_Listen, listener_Close.
  pose proof LoadClientConfig_logs. pose proof LoginFlow_serve_logs.
  repeat respects_step.
Qed.

End login_logs.

(** Every authorization URL a login opens or shows carries the state
    "state". *)
Lemma LoginFlow_url_state (E : Env) (path : string) (w w' : World)
    (o : outcome (result Token)) (u : url.URL) :
  LoginFlow E path w = (o, w') →
  EvOpenURL u ∈ events_since w w' →
  url.Get (url.Query u) "state" = "state".
Proof.
  intros Hrun Hin.
  destruct (LoginFlow_logs E path _ _ _ Hrun) as (evs & Htr & Hevs).
  rewrite (events_since_app _ _ _ Htr) in Hin.
  rewrite forallb_forall in Hevs.
  apply list_elem_of_In, Hevs in Hin. by apply bool_decide_eq_true in Hin.
Qed.

(** C6, as stated, fails: two logins, in two processes and on two ports,
    open two different authorization URLs that carry the same state. *)
Lemma two_logins_share_state :
  ∃ u1 u2,
    EvOpenURL u1 ∈
      trace (snd (LoginFlow (Fake.env 6000%Z (Ok Fake.reply) 49152%Z None)
                    "client_secret.json" (fresh_process ∅))) ∧
    EvOpenURL u2 ∈
      trace (snd (LoginFlow (Fake.env 6000%Z (Ok Fake.reply) 49153%Z None)
                    "client_secret.json" (fresh_process ∅))) ∧
    u1 ≠ u2 ∧
    url.Get (url.Query u1) "state" = url.Get (url.Query u2) "state".
Proof.
  exists (AuthCodeURL
            (with_RedirectURL Fake.config "http://localhost:49152/callback")
            "state" [AccessTypeOffline; ApprovalForce]),
         (AuthCodeURL
            (with_RedirectURL Fake.config "http://localhost:49153/callback")
            "state" [AccessTypeOffline; ApprovalForce]).
  split; [|split; [|split]].
  - apply list_elem_of_lookup. exists 8. vm_compute. reflexivity.
  - apply list_elem_of_lookup. exists 8. vm_compute. reflexivity.
  - intros Heq.
    apply (f_equal (λ u, url.Get (url.Query u) "redirect_uri")) in Heq.
    vm_compute in Heq. discriminate.
  - vm_compute. reflexivity.
Qed.

(** C6, amended. The state in the authorization URL of a login is the
    constant "state": every URL a login opens carries it, so the URLs of any
    two logins carry the same state. *)
Theorem LoginFlow_state_is_fixed (E1 E2 : Env) (path1 path2 : string)
    (w1 w1' w2 w2' : World) (o1 o2 : outcome (result Token))
    (u1 u2 : url.URL) :
  LoginFlow E1 path1 w1 = (o1, w1') →
  EvOpenURL u1 ∈ events_since w1 w1' →
  LoginFlow E2 path2 w2 = (o2, w2') →
  EvOpenURL u2 ∈ events_since w2 w2' →
  url.Get (url.Query u1) "state" = "state" ∧
  url.Get (url.Query u2) "state" = url.Get (url.Query u1) "state".
Proof.
  intros Hrun1 Hin1 Hrun2 Hin2.
  rewrite (LoginFlow_url_state _ _ _ _ _ _ Hrun1 Hin1).
  by rewrite (LoginFlow_url_state _ _ _ _ _ _ Hrun2 Hin2).
Qed.

Lemma LoginFlow_state_is_fixed_witness :
  ∃ u1 u2,
    url.Get (url.Query u1) "redirect_uri"
      = "http://localhost:49152/callback" ∧
    url.Get (url.Query u2) "redirect_uri"
      = "http://localhost:49153/callback" ∧
    url.Get (url.Query u1) "state" = "state" ∧
    url.Get (url.Query u2) "state" = url.Get (url.Query u1) "state".
Proof.
  exists (AuthCodeURL
            (with_RedirectURL Fake.config "http://localhost:49152/callback")
            "state" [AccessTypeOffline; ApprovalForce]),
         (AuthCodeURL
            (with_RedirectURL Fake.config "http://localhost:49153/callback")
            "state" [AccessTypeOffline; ApprovalForce]).
  split; [vm_compute; reflexivity|]. split; [vm_compute; reflexivity|].
  eapply (LoginFlow_state_is_fixed
            (Fake.env 6000%Z (Ok Fake.reply) 49152%Z None)
            (Fake.env 6000%Z (Ok Fake.reply) 49153%Z None)
            "client_secret.json" "client_secret.json"
            (fresh_process ∅) _ (fresh_process ∅)).
  - reflexivity.
  - apply list_elem_of_lookup. exists 8. vm_compute. reflexivity.
  - reflexivity.
  - apply list_elem_of_lookup. exists 8. vm_compute. reflexivity.
Defined.

(** ** Logging in again *)

Section login_mux.

Variable E : Env.

Lemma net_Listen_run (network address : string) (w : World) :
  net_Listen E network address w =
  match assigned_port E (trace w) network address with
  | Err err => (Err err, log (EvListen network address) w)
  | Ok port =>
      (Ok port,
       {| keychain := keychain w; mux := mux w;
          listening := {[port]} ∪ listening w;
          trace := trace w ++ [EvListen network address] |})
  end.
Proof.
  unfold net_Listen. run. cbn.
  by destruct (assigned_port E (trace w) network address).
Qed.

Lemma http_HandleFunc_run (pattern : string) (w : World) :
  http_HandleFunc pattern w =
  if decide (pattern ∈ mux w) then
    (Some ("http: multiple registrations for " +:+ pattern),
     log (EvHandleFunc pattern) w)
  else
    (None,
     {| keychain := keychain w; mux := {[pattern]} ∪ mux w;
        listening := listening w;
        trace := trace w ++ [EvHandleFunc pattern] |}).
Proof. unfold http_HandleFunc. run. cbn. by case_decide. Qed.

Lemma only_logs_mux_grows (p : Event → bool) (w w' : World) :
  only_logs p w w' → mux_grows w w'.
Proof. intros (_ & Hmux & _). unfold mux_grows. by rewrite Hmux. Qed.

Lemma Exchange_mux (conf : Config) (code : string) :
  respects mux_grows (Exchange E conf code).
Proof.
  eapply respects_weaken; [|apply retrieveToken_quiet].
  apply only_logs_mux_grows.
Qed.

Lemma await_mux : respects mux_grows (await E).
Proof. unfold await, callbackHandler. repeat respects_step. Qed.

(** Once [LoginFlow] has its listener, it leaves [/callback] registered,
    however it ends. *)
Lemma LoginFlow_serve_registers (config : Config) (port : Z) (w w' : World)
    (o : outcome (result Token)) :
  LoginFlow_serve E config port w = (o, w') → "/callback" ∈ mux w'.
Proof.
  unfold LoginFlow_serve. unfold mbind at 1, M_bind at 1.
  rewrite http_HandleFunc_run. case_decide as Hreg.
  { by intros [= <- <-]. }
  intros Hrun.
  match type of Hrun with
  | ?m ?wa = _ => assert (Hm : respects mux_grows m)
  end.
  { unfold browser_OpenURL, server_Shutdown.
    pose proof await_mux. pose proof Exchange_mux. repeat respects_step. }
  apply Hm in Hrun. unfold mux_grows in Hrun. cbn in Hrun. set_solver.
Qed.

End login_mux.

(** C5. The second [LoginFlow] of a process panics.  When a first call got
    as far as its listener, then, however it ended, a call that follows and
    gets as far as its own listener panics in [http.HandleFunc], because
    [/callback] is still registered on the multiplexer of the process; its
    listener, bound to [localhost:0], is closed on the way out. *)
Theorem second_LoginFlow_panics (E : Env) (path path' : string)
    (w w1 w2 wf wf1 wf2 : World) (o : outcome (result Token))
    (config config' : Config) (port port' : Z) :
  LoadClientConfig E path w = (Ok config, w1) →
  net_Listen E "tcp" "localhost:0" w1 = (Ok port, w2) →
  LoginFlow E path w = (o, wf) →
  LoadClientConfig E path' wf = (Ok config', wf1) →
  net_Listen E "tcp" "localhost:0" wf1 = (Ok port', wf2) →
  LoginFlow E path' wf =
    (Panicked "http: multiple registrations for /callback",
     {| keychain := keychain wf; mux := mux wf;
        listening := listening wf ∖ {[port']};
        trace := trace wf ++
                 [EvReadFile path'; EvListen "tcp" "localhost:0";
                  EvHandleFunc "/callback"; EvClose port'] |}).
Proof.
  intros Hconfig Hlisten Hrun Hconfig' Hlisten'.
  assert (Hreg : "/callback" ∈ mux wf).
  { revert Hrun. unfold LoginFlow. unfold mbind at 1, M_bind at 1.
    rewrite Hconfig. unfold mbind at 1, M_bind at 1. rewrite Hlisten.
    unfold mbind at 1, M_bind at 1.
    destruct (LoginFlow_serve E config port w2) as [o' w3] eqn:Hserve.
    apply LoginFlow_serve_registers in Hserve.
    unfold listener_Close. run. cbn. by intros [= <- <-]. }
  rewrite LoadClientConfig_run in Hconfig'. rewrite net_Listen_run in Hlisten'.
  unfold LoginFlow. unfold mbind at 1, M_bind at 1.
  rewrite LoadClientConfig_run.
  destruct (read_file E (trace wf) path') as [err|secret]; [done|].
  destruct (google_ConfigFromJSON E secret searchConsoleScope) as [err|c];
    [done|].
  injection Hconfig' as -> <-.
  unfold mbind at 1, M_bind at 1. rewrite net_Listen_run.
  destruct (assigned_port E _ "tcp" "localhost:0") as [err|p]; [done|].
  injection Hlisten' as -> <-.
  unfold mbind at 1, M_bind at 1. unfold LoginFlow_serve.
  unfold mbind at 1, M_bind at 1. rewrite http_HandleFunc_run.
  rewrite decide_True by done.
  unfold listener_Close. run. cbn. f_equal. f_equal.
  - apply set_eq. intros x. rewrite !elem_of_difference, elem_of_union. tauto.
  - by rewrite <- !app_assoc.
Qed.

Lemma second_LoginFlow_panics_witness :
  ∃ token wf,
    LoginFlow Fake.consenting "client_secret.json" (fresh_process ∅)
      = (Returned (Ok token), wf) ∧
    fst (LoginFlow Fake.consenting "client_secret.json" wf)
      = Panicked "http: multiple registrations for /callback".
Proof.
  eexists _, _. split; [vm_compute; reflexivity|].
  erewrite (second_LoginFlow_panics Fake.consenting "client_secret.json"
              "client_secret.json" (fresh_process ∅)).
  - reflexivity.
  - vm_compute. reflexivity.
  - vm_compute. reflexivity.
  - vm_compute. reflexivity.
  - vm_compute. reflexivity.
  - vm_compute. reflexivity.
Defined.

(** ** The deadline *)

(** C7. When nothing reaches the callback server before the deadline of
    five minutes, a login that has its client secret, its listener and its
    handler fails with [TimeoutError] and has closed its listener.  That
    error is not the [AuthorizationDenied] of any reason, nor any error the
    callback handler reports, and reads differently, also behind the
    prefix the command puts before it. *)
Theorem LoginFlow_times_out (E : Env) (path : string) (w w1 w2 : World)
    (config : Config) (port : Z) :
  "/callback" ∉ mux w →
  LoadClientConfig E path w = (Ok config, w1) →
  net_Listen E "tcp" "localhost:0" w1 = (Ok port, w2) →
  (∀ tr delay arrival,
     first_arrival E tr = Some (delay, arrival) →
     (5 * time.Minute ≤ delay)%Z) →
  (∃ wf, LoginFlow E path w = (Returned (Err TimeoutError), wf) ∧
         port ∉ listening wf) ∧
  (∀ reason,
     TimeoutError ≠ AuthorizationDenied reason ∧
     Error TimeoutError ≠ Error (AuthorizationDenied reason) ∧
     Error (wrapError "authentication failed: " TimeoutError)
       ≠ Error (wrapError "authentication failed: "
                  (AuthorizationDenied reason))) ∧
  (∀ query w0 err w0',
     callbackHandler query w0 = (OnErrChan err, w0') →
     ∃ reason, err = AuthorizationDenied reason).
Proof.
  intros Hfree Hconfig Hlisten Hlate. split; [|split].
  - rewrite LoadClientConfig_run in Hconfig. rewrite net_Listen_run in Hlisten.
    unfold LoginFlow. unfold mbind at 1, M_bind at 1.
    rewrite LoadClientConfig_run.
    destruct (read_file E (trace w) path) as [err|secret]; [done|].
    destruct (google_ConfigFromJSON E secret searchConsoleScope) as [err|c];
      [done|].
    injection Hconfig as -> <-.
    unfold mbind at 1, M_bind at 1. rewrite net_Listen_run.
    destruct (assigned_port E _ "tcp" "localhost:0") as [err|p]; [done|].
    injection Hlisten as -> <-.
    unfold mbind at 1, M_bind at 1. unfold LoginFlow_serve.
    unfold mbind at 1, M_bind at 1. rewrite http_HandleFunc_run.
    rewrite decide_False by done.
    unfold browser_OpenURL, server_Shutdown, listener_Close. run. cbn.
    assert (Hwait : ∀ w0, ∃ w0', await E w0 = (TimedOut, w0') ∧
                       listening w0' = listening w0).
    { intros w0. rewrite await_run.
      destruct (first_arrival E _) as [[delay arrival]|] eqn:Harrival;
        [|by eexists].
      apply Hlate in Harrival.
      rewrite decide_False by (unfold loginDeadline; lia). by eexists. }
    match goal with
    | |- context [open_browser E ?tr ?u] => destruct (open_browser E tr u)
    end; cbn.
    + match goal with
      | |- context [await E ?w0] =>
          destruct (Hwait w0) as (w0' & -> & Hl)
      end.
      cbn. eexists. split; [reflexivity|]. cbn. rewrite Hl. cbn.
      rewrite !elem_of_difference, elem_of_singleton. tauto.
    + match goal with
      | |- context [await E ?w0] =>
          destruct (Hwait w0) as (w0' & -> & Hl)
      end.
      cbn. eexists. split; [reflexivity|]. cbn. rewrite Hl. cbn.
      rewrite !elem_of_difference, elem_of_singleton. tauto.
  - intros reason. repeat split; cbn; by intros [=].
  - intros query w0 err w0'. rewrite callbackHandler_run.
    case_decide; [|done]. intros [= <- _]. eauto.
Qed.

Lemma LoginFlow_times_out_witness :
  (∃ wf,
     LoginFlow Fake.offline "client_secret.json" (fresh_process ∅)
       = (Returned (Err TimeoutError), wf) ∧
     49152%Z ∉ listening wf) ∧
  Error TimeoutError ≠ Error (AuthorizationDenied "access_denied").
Proof.
  edestruct (LoginFlow_times_out Fake.offline "client_secret.json"
               (fresh_process ∅)) as (Hrun & Hdistinct & _).
  - apply not_elem_of_empty.
  - vm_compute. reflexivity.
  - vm_compute. reflexivity.
  - intros tr delay arrival. discriminate.
  - split; [exact Hrun|]. apply (Hdistinct "access_denied").
Defined.

(** ** The store, beyond the round trip *)

Lemma stored_GetToken (E : Env) (w : World) (t : Token) :
  fst (GetToken E w) = Ok (Some t) → stored E w = Some t.
Proof.
  rewrite GetToken_run. cbn. unfold stored.
  destruct (keyring_fault E (trace w)); [done|].
  destruct (keychain w !! (serviceName, tokenKey)) as [data|]; [|done].
  destruct (json_Unmarshal E data); [done|]. by intros [= ->].
Qed.

(** X1. The store has one slot and the last write wins. *)
Theorem SetToken_last_write_wins (E : Env) (t1 t2 : Token) (d1 d2 : string)
    (w : World) :
  keyring_up E → json_roundtrip E t2 →
  json_Marshal E t1 = Ok d1 → json_Marshal E t2 = Ok d2 →
  ∃ w1 w2 w3,
    SetToken E t1 w = (None, w1) ∧
    SetToken E t2 w1 = (None, w2) ∧
    keychain w2 = keychain (snd (SetToken E t2 w)) ∧
    GetToken E w2 = (Ok (Some t2), w3).
Proof.
  intros Hup Hcodec Hd1 Hd2.
  eexists _, _, _. rewrite !SetToken_run, Hd1, Hd2, !Hup. cbn.
  split; [done|]. split; [done|].
  split; [apply insert_insert_eq|].
  rewrite GetToken_run, Hup. cbn. rewrite lookup_insert_eq.
  by rewrite (Hcodec _ Hd2).
Qed.

Lemma SetToken_last_write_wins_witness :
  ∃ w1 w2 w3,
    SetToken Fake.offline Fake.unexpiring (fresh_process ∅) = (None, w1) ∧
    SetToken Fake.offline Fake.token w1 = (None, w2) ∧
    keychain w2 = Fake.keychain_with Fake.token ∧
    GetToken Fake.offline w2 = (Ok (Some Fake.token), w3).
Proof.
  edestruct (SetToken_last_write_wins Fake.offline Fake.unexpiring Fake.token)
    with (w := fresh_process ∅) as (w1 & w2 & w3 & H1 & H2 & Hkc & H3).
  - apply Fake_keyring_up.
  - apply Fake_roundtrip.
  - reflexivity.
  - reflexivity.
  - exists w1, w2, w3. split; [exact H1|]. split; [exact H2|].
    split; [|exact H3]. rewrite Hkc. vm_compute. reflexivity.
Defined.

Lemma HasToken_run (E : Env) (w : World) :
  HasToken E w =
  (match fst (GetToken E w) with
   | Ok (Some _) => true
   | _ => false
   end, log (EvKeyringGet serviceName tokenKey) w).
Proof.
  unfold HasToken. unfold mbind at 1, M_bind at 1. rewrite GetToken_run.
  cbn [fst].
  destruct (keyring_fault E (trace w)); [done|].
  destruct (keychain w !! (serviceName, tokenKey)) as [data|]; [|done].
  by destruct (json_Unmarshal E data).
Qed.

(** X2. [HasToken] answers [true] exactly when the keychain is reachable
    and holds a record that decodes; a keychain that is down and a record
    that does not decode are answered [false], as an empty slot is.  It
    only reads. *)
Theorem HasToken_iff_stored (E : Env) (w : World) :
  (fst (HasToken E w) = true ↔
   keyring_fault E (trace w) = None ∧ is_Some (stored E w)) ∧
  keychain (snd (HasToken E w)) = keychain w ∧
  events_since w (snd (HasToken E w)) = [EvKeyringGet serviceName tokenKey].
Proof.
  rewrite HasToken_run, GetToken_run. cbn [fst snd]. unfold stored.
  split; [|split; [done|by apply events_since_app]].
  destruct (keyring_fault E (trace w)) as [msg|]; [by split; [|intros [? _]]|].
  destruct (keychain w !! (serviceName, tokenKey)) as [data|];
    [|split; [done|by intros [_ [? ?]]]].
  destruct (json_Unmarshal E data);
    [split; [done|by intros [_ [? ?]]]|by split; [eauto|]].
Qed.

(** ** The status query *)

(** X3. [GetTokenInfo] only reads: the keychain, the multiplexer and the
    listeners are as before, the run adds the read of the keychain and at
    most a read of the clock, so it never enters [RefreshToken], makes no
    round trip and writes nothing. *)
Theorem GetTokenInfo_read_only (E : Env) (w : World) :
  let w' := snd (GetTokenInfo E w) in
  only_logs reads_only w w' ∧
  (events_since w w' = [EvKeyringGet serviceName tokenKey] ∨
   events_since w w' = [EvKeyringGet serviceName tokenKey; EvNow]) ∧
  count_events is_refresh_call (events_since w w') = 0 ∧
  count_events is_round_trip (events_since w w') = 0 ∧
  count_events is_store_write (events_since w w') = 0.
Proof.
  rewrite GetTokenInfo_run. cbv zeta.
  assert (Hget : only_logs reads_only w
                   (log (EvKeyringGet serviceName tokenKey) w)).
  { repeat split. by exists [EvKeyringGet serviceName tokenKey]. }
  assert (Hnow : only_logs reads_only w
                   (log EvNow (log (EvKeyringGet serviceName tokenKey) w))).
  { repeat split. exists [EvKeyringGet serviceName tokenKey; EvNow].
    by rewrite !log_trace, <- app_assoc. }
  destruct (fst (GetToken E w)) as [err|[token|]]; cbn [snd].
  - erewrite events_since_app by done.
    split; [exact Hget|]. split; [by left|done].
  - erewrite events_since_app by (rewrite !log_trace, <- app_assoc; done).
    split; [exact Hnow|]. split; [by right|done].
  - erewrite events_since_app by done.
    split; [exact Hget|]. split; [by left|done].
Qed.

(** X4. [GetTokenInfo] foretells [GetValidToken] on the same keychain and
    clock: it reports no token exactly when [GetValidToken] fails with
    "not logged in"; it reports a token that is not expired exactly when
    [GetValidToken] returns the stored token without entering
    [RefreshToken]; it fails exactly when [GetValidToken] fails with the
    same error of the store. *)
Theorem GetTokenInfo_foretells_GetValidToken (E : Env) (path : string)
    (w : World) :
  let w1 := log (EvKeyringGet serviceName tokenKey) w in
  match fst (GetTokenInfo E w) with
  | Err err => GetValidToken E path w = (Err err, w1)
  | Ok info =>
      if TokenInfo.HasToken info then
        ∃ token,
          stored E w = Some token ∧
          TokenInfo.Expiry info = Expiry token ∧
          TokenInfo.TokenType info = TokenType token ∧
          if TokenInfo.IsExpired info then
            ∃ evs,
              events_since w (snd (GetValidToken E path w)) =
                EvKeyringGet serviceName tokenKey :: EvNow
                :: EvRefreshToken path token :: evs
          else
            GetValidToken E path w = (Ok token, log EvNow w1)
      else GetValidToken E path w = (Err NotAuthenticated, w1)
  end.
Proof.
  intros w1. rewrite GetTokenInfo_run, GetValidToken_run. cbv zeta. fold w1.
  destruct (fst (GetToken E w)) as [err|[token|]] eqn:Hget;
    cbn [TokenInfo.HasToken TokenInfo.Expiry TokenInfo.IsExpired
         TokenInfo.TokenType]; [done| |done].
  exists token. split; [by apply stored_GetToken|]. split; [done|].
  split; [done|].
  destruct (time.Before (Expiry token) (clock E (trace w1))); [|done].
  destruct (RefreshToken E path token (log EvNow w1)) as [r w3] eqn:Hrun.
  destruct (RefreshToken_trace _ _ _ _ _ _ Hrun) as (_ & evs & Htr & _).
  assert (Hsince : ∀ w4 evs', trace w4 = trace w3 ++ evs' →
            events_since w w4 =
              EvKeyringGet serviceName tokenKey :: EvNow
              :: EvRefreshToken path token :: evs ++ evs').
  { intros w4 evs' Htr'. apply events_since_app. rewrite Htr', Htr.
    unfold w1. rewrite !log_trace, <- !app_assoc. done. }
  destruct r as [err|token']; cbn [snd].
  { eexists. apply (Hsince w3 []). by rewrite app_nil_r. }
  rewrite SetToken_run. destruct (json_Marshal E token') as [err|data].
  { eexists. apply (Hsince w3 []). by rewrite app_nil_r. }
  destruct (keyring_fault E (trace w3)); eexists; by eapply (Hsince _ [_]).
Qed.

(** ** Failures of [GetValidToken] *)

(** X5. After a refresh that failed, the status query still finds the
    token and reports it expired: when [GetValidToken] has returned
    [RefreshFailed], a [GetTokenInfo] that follows (the keychain being
    reachable and the clock not running backwards) reports a token with the
    expiry and the type of the one stored before, expired. *)
Theorem failed_refresh_still_reports_expired (E : Env) (path : string)
    (w w' : World) (cause : error) :
  GetValidToken E path w = (Err (RefreshFailed cause), w') →
  keyring_fault E (trace w') = None →
  clock_monotone E →
  ∃ token,
    stored E w = Some token ∧
    fst (GetTokenInfo E w') =
      Ok {| TokenInfo.HasToken := true;
            TokenInfo.Expiry := Expiry token;
            TokenInfo.IsExpired := true;
            TokenInfo.TokenType := TokenType token |}.
Proof.
  intros Hrun Hup Hclock. rewrite GetValidToken_run in Hrun. cbv zeta in Hrun.
  pose proof (GetToken_run E w) as Hget.
  destruct (fst (GetToken E w)) as [err|[token|]] eqn:Hfst.
  { rewrite Hget in Hfst. cbn in Hfst. injection Hrun as Herr _.
    destruct (keyring_fault E (trace w)); [by simplify_eq|].
    destruct (keychain w !! (serviceName, tokenKey)) as [data|]; [|done].
    destruct (json_Unmarshal E data); by simplify_eq. }
  2: { by injection Hrun. }
  set (w1 := log (EvKeyringGet serviceName tokenKey) w) in *.
  destruct (time.Before (Expiry token) (clock E (trace w1))) eqn:Hexpired;
    [|done].
  destruct (RefreshToken E path token (log EvNow w1)) as [[err|token'] w3]
    eqn:Hrefresh.
  2: { rewrite SetToken_run in Hrun.
       destruct (json_Marshal E token'); [by simplify_eq|].
       destruct (keyring_fault E (trace w3)); by simplify_eq. }
  injection Hrun as -> ->.
  destruct (RefreshToken_trace _ _ _ _ _ _ Hrefresh) as (Hkc & evs & Htr & _).
  exists token. pose proof (stored_GetToken _ _ _ Hfst) as Hstored.
  split; [done|]. clear Hget.
  rewrite GetTokenInfo_run, GetToken_run, Hup. cbv zeta. cbn [fst].
  rewrite Hkc. change (keychain (log EvNow w1)) with (keychain w).
  unfold stored in Hstored.
  destruct (keychain w !! (serviceName, tokenKey)) as [data|]; [|done].
  destruct (json_Unmarshal E data) as [err|t]; [done|].
  injection Hstored as ->. cbn [fst]. do 2 f_equal.
  unfold time.Before in *. apply Z.ltb_lt. apply Z.ltb_lt in Hexpired.
  eapply Z.lt_le_trans; [exact Hexpired|]. apply Hclock.
  rewrite log_trace, Htr. unfold w1. rewrite !log_trace, <- !app_assoc.
  apply prefix_app, prefix_app_r. done.
Qed.

Lemma failed_refresh_still_reports_expired_witness :
  ∃ w',
    GetValidToken Fake.offline "client_secret.json"
      (fresh_process (Fake.keychain_with Fake.token))
    = (Err (RefreshFailed (errorString "dial tcp: no route to host")), w') ∧
    fst (GetTokenInfo Fake.offline w') =
      Ok {| TokenInfo.HasToken := true; TokenInfo.Expiry := 5000%Z;
            TokenInfo.IsExpired := true; TokenInfo.TokenType := "Bearer" |}.
Proof.
  eexists. split; [vm_compute; reflexivity|].
  edestruct (failed_refresh_still_reports_expired Fake.offline
               "client_secret.json"
               (fresh_process (Fake.keychain_with Fake.token)))
    as (token & Hstored & Hinfo).
  - vm_compute. reflexivity.
  - reflexivity.
  - intros tr tr' _. reflexivity.
  - rewrite Hinfo. vm_compute in Hstored. by injection Hstored as <-.
Defined.

(** [SetToken] leaves the keychain as it was when it fails. *)
Lemma SetToken_failure_keeps_keychain (E : Env) (t : Token) (w w' : World)
    (err : error) :
  SetToken E t w = (Some err, w') → keychain w' = keychain w.
Proof.
  rewrite SetToken_run. destruct (json_Marshal E t); [by intros [= _ <-]|].
  destruct (keyring_fault E (trace w)); [by intros [= _ <-]|done].
Qed.

(** X6. A [GetValidToken] that fails, for whatever reason (the store, the
    record, no login, the client secret, the refresh, the write of the
    refreshed token), leaves the keychain as it was: what was stored before
    is stored after. *)
Theorem GetValidToken_failure_keeps_keychain (E : Env) (path : string)
    (w w' : World) (err : error) :
  GetValidToken E path w = (Err err, w') →
  keychain w' = keychain w ∧ stored E w' = stored E w.
Proof.
  intros Hrun.
  assert (Hkeep : keychain w' = keychain w); [|by unfold stored; rewrite Hkeep].
  rewrite GetValidToken_run in Hrun. cbv zeta in Hrun.
  destruct (fst (GetToken E w)) as [err'|[token|]];
    [by injection Hrun as _ <-| |by injection Hrun as _ <-].
  destruct (time.Before _ _); [|done].
  destruct (RefreshToken E path token _) as [[err'|token'] w3] eqn:Hrefresh;
    destruct (RefreshToken_trace _ _ _ _ _ _ Hrefresh) as (Hkc & _).
  { by injection Hrun as _ <-. }
  destruct (SetToken E token' w3) as [[err'|] w4] eqn:Hset; [|done].
  injection Hrun as _ <-.
  by rewrite (SetToken_failure_keeps_keychain _ _ _ _ _ Hset), Hkc.
Qed.

Lemma GetValidToken_failure_keeps_keychain_witness :
  ∃ w',
    GetValidToken (Fake.env_keyring_down 6000%Z) "client_secret.json"
      (fresh_process (Fake.keychain_with Fake.token))
    = (Err (wrapError "could not retrieve token from keyring: "
              (errorString "secret service is not available")), w') ∧
    keychain w' = Fake.keychain_with Fake.token.
Proof.
  eexists. split; [vm_compute; reflexivity|].
  eapply (GetValidToken_failure_keeps_keychain (Fake.env_keyring_down 6000%Z)
            "client_secret.json"
            (fresh_process (Fake.keychain_with Fake.token))).
  vm_compute. reflexivity.
Defined.

(** X7. The token [GetValidToken] returns is the token in the keychain
    when it returns, be it the one found there or a refreshed one (which
    [encoding/json] gives back). *)
Theorem GetValidToken_returns_stored (E : Env) (path : string)
    (w w' : World) (token : Token) :
  json_roundtrip E token →
  GetValidToken E path w = (Ok token, w') →
  stored E w' = Some token.
Proof.
  intros Hcodec Hrun. rewrite GetValidToken_run in Hrun. cbv zeta in Hrun.
  destruct (fst (GetToken E w)) as [err'|[t|]] eqn:Hget; [done| |done].
  apply stored_GetToken in Hget.
  destruct (time.Before _ _); [|by injection Hrun as <- <-].
  destruct (RefreshToken E path t _) as [[err'|token'] w3]; [done|].
  rewrite SetToken_run in Hrun.
  destruct (json_Marshal E token') as [err'|data] eqn:Hdata; [done|].
  destruct (keyring_fault E (trace w3)); [done|].
  injection Hrun as -> <-. unfold stored. cbn. rewrite lookup_insert_eq.
  by rewrite (Hcodec _ Hdata).
Qed.

Lemma GetValidToken_returns_stored_witness :
  ∃ token w',
    GetValidToken Fake.online "client_secret.json"
      (fresh_process (Fake.keychain_with Fake.token)) = (Ok token, w') ∧
    AccessToken token = "tok2" ∧
    stored Fake.online w' = Some token.
Proof.
  eexists _, _. split; [vm_compute; reflexivity|]. split; [reflexivity|].
  eapply (GetValidToken_returns_stored Fake.online "client_secret.json"
            (fresh_process (Fake.keychain_with Fake.token))).
  - apply Fake_roundtrip.
  - vm_compute. reflexivity.
Defined.

(** X8. An expired token cannot be refreshed without the client secret,
    and that failure is not a failure of the refresh: when the client secret
    cannot be loaded, [GetValidToken] returns the error of [LoadClientConfig]
    as it is, which is no [RefreshFailed], and has made no round trip. *)
Theorem expired_token_needs_client_secret (E : Env) (path : string)
    (w w4 : World) (token : Token) (err : error) :
  let w1 := log (EvKeyringGet serviceName tokenKey) w in
  let w3 := log (EvRefreshToken path token) (log EvNow w1) in
  fst (GetToken E w) = Ok (Some token) →
  time.Before (Expiry token) (clock E (trace w1)) = true →
  LoadClientConfig E path w3 = (Err err, w4) →
  GetValidToken E path w = (Err err, w4) ∧
  (∀ cause, err ≠ RefreshFailed cause) ∧
  events_since w w4 =
    [EvKeyringGet serviceName tokenKey; EvNow; EvRefreshToken path token;
     EvReadFile path] ∧
  count_events is_round_trip (events_since w w4) = 0 ∧
  keychain w4 = keychain w.
Proof.
  intros w1 w3 Hget Hexpired Hconfig.
  assert (Hrefresh : RefreshToken E path token (log EvNow w1) = (Err err, w4)).
  { unfold RefreshToken. unfold mbind at 1, M_bind at 1, emit.
    unfold mbind at 1, M_bind at 1. fold w3. by rewrite Hconfig. }
  rewrite GetValidToken_run. cbv zeta. fold w1.
  rewrite Hget, Hexpired, Hrefresh. split; [done|].
  rewrite LoadClientConfig_run in Hconfig.
  assert (Hw4 : w4 = log (EvReadFile path) w3) by (by injection Hconfig).
  split.
  { intros cause ->. destruct (read_file E (trace w3) path) as [e|data];
      [by simplify_eq|].
    destruct (google_ConfigFromJSON E data searchConsoleScope);
      by simplify_eq. }
  assert (Hsince : events_since w w4 =
    [EvKeyringGet serviceName tokenKey; EvNow; EvRefreshToken path token;
     EvReadFile path]).
  { apply events_since_app. rewrite Hw4. unfold w3, w1.
    by rewrite !log_trace, <- !app_assoc. }
  rewrite Hsince. by rewrite Hw4.
Qed.

Lemma expired_token_needs_client_secret_witness :
  ∃ w4,
    GetValidToken env_without_client_secret "client_secret.json"
      (fresh_process (Fake.keychain_with Fake.token))
    = (Err (wrapError "could not read client secret file: "
              (errorString
                 "open client_secret.json: no such file or directory")), w4) ∧
    keychain w4 = Fake.keychain_with Fake.token.
Proof.
  eexists.
  edestruct (expired_token_needs_client_secret env_without_client_secret
               "client_secret.json"
               (fresh_process (Fake.keychain_with Fake.token)))
    as (Hrun & _ & _ & _ & Hkeep).
  - vm_compute. reflexivity.
  - vm_compute. reflexivity.
  - vm_compute. reflexivity.
  - split; [exact Hrun|exact Hkeep].
Defined.

(** ** What a login leaves behind *)

#[global] Instance login_frame_preorder : PreOrder login_frame.
Proof.
  split.
  - intros w. unfold login_frame. do 4 (split; [set_solver|]). reflexivity.
  - intros w1 w2 w3 (Hkc & Hl & Hm & Hm' & Hlogs) (Hkc' & Hl' & Hn & Hn' & Hlogs').
    unfold login_frame. split; [congruence|]. split; [set_solver|].
    split; [set_solver|]. split; [set_solver|]. by etrans.
Qed.

Lemma login_frame_emit (ev : Event) :
  is_keyring_call ev = false → respects login_frame (emit ev).
Proof.
  intros Hev w a w' [= <- <-]. unfold login_frame. cbn.
  do 4 (split; [set_solver|]). exists [ev]. cbn. by rewrite Hev.
Qed.

Lemma only_logs_login_frame (w w' : World) :
  only_logs quiet w w' → login_frame w w'.
Proof.
  intros (Hkc & Hmux & Hl & Hlogs). unfold login_frame.
  rewrite Hmux, Hl. do 4 (split; [set_solver|]).
  eapply only_logs_weaken; [|by repeat split]. by intros [].
Qed.

Section login_frames.

Variable E : Env.

Lemma LoadClientConfig_frame (path : string) :
  respects login_frame (LoadClientConfig E path).
Proof.
  eapply respects_weaken; [apply only_logs_login_frame|].
  apply LoadClientConfig_quiet.
Qed.

Lemma Exchange_frame (conf : Config) (code : string) :
  respects login_frame (Exchange E conf code).
Proof.
  eapply respects_weaken; [apply only_logs_login_frame|].
  apply retrieveToken_quiet.
Qed.

Lemma http_HandleFunc_frame :
  respects login_frame (http_HandleFunc "/callback").
Proof.
  intros w a w'. rewrite http_HandleFunc_run. unfold login_frame.
  case_decide; intros [= <- <-]; cbn;
    (do 4 (split; [set_solver|])); by exists [EvHandleFunc "/callback"].
Qed.

Lemma server_Shutdown_frame (port : Z) :
  respects login_frame (server_Shutdown port).
Proof.
  intros w a w'. unfold server_Shutdown. run. cbn. intros [= <- <-].
  unfold login_frame. cbn. do 4 (split; [set_solver|]).
  by exists [EvShutdown].
Qed.

Lemma browser_OpenURL_frame (u : url.URL) :
  respects login_frame (browser_OpenURL E u).
Proof.
  unfold browser_OpenURL.
  repeat first [apply login_frame_emit; reflexivity | respects_step].
Qed.

Lemma await_frame : respects login_frame (await E).
Proof.
  unfold await, callbackHandler.
  repeat first [apply login_frame_emit; reflexivity | respects_step].
Qed.

Lemma LoginFlow_serve_frame (config : Config) (port : Z) :
  respects login_frame (LoginFlow_serve E config port).
Proof.
  unfold LoginFlow_serve.
  pose proof http_HandleFunc_frame. pose proof server_Shutdown_frame.
  pose proof browser_OpenURL_frame. pose proof await_frame.
  pose proof Exchange_frame.
  repeat first [apply login_frame_emit; reflexivity | respects_step].
Qed.

End login_frames.

(** Every run of [LoginFlow] stays within the frame. *)
Lemma LoginFlow_frame (E : Env) (path : string) :
  respects login_frame (LoginFlow E path).
Proof.
  intros w o wf. unfold LoginFlow. unfold mbind at 1, M_bind at 1.
  destruct (LoadClientConfig E path w) as [[err|config] w1] eqn:Hconfig;
    apply LoadClientConfig_frame in Hconfig; [by intros [= _ <-]|].
  unfold mbind at 1, M_bind at 1. rewrite net_Listen_run.
  destruct (assigned_port E (trace w1) "tcp" "localhost:0") as [err|port].
  { intros [= _ <-]. etrans; [exact Hconfig|]. unfold login_frame. cbn.
    do 4 (split; [set_solver|]). by exists [EvListen "tcp" "localhost:0"]. }
  unfold mbind at 1, M_bind at 1.
  match goal with
  | |- context [LoginFlow_serve E config port ?w2] =>
      destruct (LoginFlow_serve E config port w2) as [o' w3] eqn:Hserve
  end.
  apply LoginFlow_serve_frame in Hserve.
  destruct Hconfig as (Hkc & Hl & Hm & Hm' & evs & Htr & Hevs).
  destruct Hserve as (Hkc' & Hl' & Hn & Hn' & evs' & Htr' & Hevs').
  cbn in Hkc', Hl', Hn, Hn', Htr'.
  unfold listener_Close. run. cbn. intros [= _ <-]. unfold login_frame. cbn.
  split; [congruence|]. split; [set_solver|]. split; [set_solver|].
  split; [set_solver|].
  exists (evs ++ [EvListen "tcp" "localhost:0"] ++ evs' ++ [EvClose port]).
  split; [rewrite Htr', Htr, <- !app_assoc; done|].
  rewrite !forallb_app, Hevs, Hevs'. done.
Qed.

(** X9. The footprint of a login, however it ends (with a token, an
    error or a panic): the keychain is as it was and no call of package
    [keyring] was made, so storing the token is left to the caller; the
    process listens on no port more than before; the multiplexer has kept
    its patterns and has at most [/callback] more. *)
Theorem LoginFlow_footprint (E : Env) (path : string) (w : World) :
  let w' := snd (LoginFlow E path w) in
  keychain w' = keychain w ∧
  listening w' ⊆ listening w ∧
  mux w ⊆ mux w' ∧ mux w' ⊆ {["/callback"]} ∪ mux w ∧
  count_events is_keyring_call (events_since w w') = 0.
Proof.
  cbv zeta. destruct (LoginFlow E path w) as [o w'] eqn:Hrun. cbn [snd].
  destruct (LoginFlow_frame _ _ _ _ _ Hrun)
    as (Hkc & Hl & Hm & Hm' & evs & Htr & Hevs).
  do 4 (split; [done|]).
  rewrite (events_since_app _ _ _ Htr).
  apply (count_events_disjoint _ _ _ (λ ev, proj1 (negb_true_iff _)) Hevs).
Qed.

(** ** The course of a login *)

Section login_course.

Variable E : Env.

(** [LoginFlow] from the registration of its handler on, when the pattern
    is free: the announcement, the complaint when the browser did not
    start, the wait, the shutdown, the exchange. *)
Lemma LoginFlow_serve_run (config : Config) (port : Z) (w : World) :
  "/callback" ∉ mux w →
  let cfg := with_RedirectURL config (loopback_redirect port) in
  let u := AuthCodeURL cfg "state" [AccessTypeOffline; ApprovalForce] in
  let w1 := {| keychain := keychain w; mux := {["/callback"]} ∪ mux w;
               listening := listening w;
               trace := trace w ++ login_announcement port u |} in
  let w2 :=
    match open_browser E (trace w ++ removelast (login_announcement port u)) u
    with
    | Some err =>
        log (EvPrintln ("Could not open browser automatically: "
                        +:+ Error err)) w1
    | None => w1
    end in
  LoginFlow_serve E config port w =
  let '(r, w3) := await E w2 in
  let w4 := snd (server_Shutdown port w3) in
  match r with
  | Failed err => (Returned (Err err), w4)
  | TimedOut => (Returned (Err TimeoutError), w4)
  | Completed code =>
      let '(r, w5) := Exchange E cfg code w4 in
      (Returned
         match r with
         | Err err =>
             Err (wrapError "could not exchange authorization code: " err)
         | Ok token => Ok token
         end, w5)
  end.
Proof.
  intros Hfree cfg u w1 w2. unfold LoginFlow_serve.
  unfold mbind at 1, M_bind at 1. rewrite http_HandleFunc_run.
  rewrite decide_False by done.
  unfold browser_OpenURL, server_Shutdown. run. cbn.
  fold (loopback_redirect port). fold cfg. fold u.
  assert (Htr : ∀ tr : list Event,
    (((((tr ++ [EvHandleFunc "/callback"]) ++ [EvServe port]) ++
        [EvPrintln "Opening browser for authorization..."]) ++
       [EvPrintln "If the browser doesn't open, visit this URL:"]) ++
      [EvPrintlnURL u]) ++ [EvPrintln ""]
    = tr ++ removelast (login_announcement port u)).
  { intros tr. cbn. by rewrite <- !app_assoc. }
  rewrite Htr.
  match goal with
  | |- context [log (EvOpenURL u) ?w0] =>
      assert (Hw1 : log (EvOpenURL u) w0 = w1)
        by (unfold w1, log; cbn; f_equal; by rewrite <- !app_assoc);
      rewrite Hw1
  end.
  unfold w2. destruct (open_browser E _ u) as [err|].
  - destruct (await E _) as [[code|err'|] w3]; try done.
    by destruct (Exchange E cfg code _) as [[err'|token] w5].
  - destruct (await E _) as [[code|err'|] w3]; try done.
    by destruct (Exchange E cfg code _) as [[err'|token] w5].
Qed.

Lemma await_after : respects (logs after_browser) (await E).
Proof. unfold await, callbackHandler. repeat respects_step. Qed.

Lemma retrieveToken_of_exchanger (conf : Config)
    (form : list (string * string)) :
  respects (only_logs of_exchanger) (retrieveToken E conf form).
Proof. unfold retrieveToken, time_Now. repeat respects_step. Qed.

Lemma Exchange_after (conf : Config) (code : string) :
  respects (logs after_browser) (Exchange E conf code).
Proof.
  eapply respects_weaken; [|apply retrieveToken_of_exchanger].
  intros w w'. apply only_logs_weaken. by intros [].
Qed.

(** What [LoginFlow] adds to the trace from the registration on: the
    announcement, then nothing of its kind. *)
Lemma LoginFlow_serve_trace (config : Config) (port : Z) (w w' : World)
    (o : outcome (result Token)) :
  "/callback" ∉ mux w →
  LoginFlow_serve E config port w = (o, w') →
  ∃ evs,
    trace w' =
      trace w ++
      login_announcement port
        (AuthCodeURL (with_RedirectURL config (loopback_redirect port))
           "state" [AccessTypeOffline; ApprovalForce]) ++ evs ∧
    forallb after_browser evs = true.
Proof.
  intros Hfree. rewrite LoginFlow_serve_run by done. cbv zeta.
  set (u := AuthCodeURL _ _ _).
  set (w1 := {| keychain := keychain w; mux := {["/callback"]} ∪ mux w;
                listening := listening w;
                trace := trace w ++ login_announcement port u |}).
  set (w2 := match open_browser E _ u with Some _ => _ | None => _ end).
  assert (H2 : logs after_browser w1 w2).
  { unfold w2. destruct (open_browser E _ u); [|reflexivity].
    eexists [_]. split; [reflexivity|done]. }
  destruct (await E w2) as [r w3] eqn:Hwait.
  apply await_after in Hwait.
  assert (H4 : logs after_browser w3 (snd (server_Shutdown port w3))).
  { by exists [EvShutdown]. }
  assert (Hend : ∀ wf, logs after_browser (snd (server_Shutdown port w3)) wf →
            ∃ evs, trace wf = trace w ++ login_announcement port u ++ evs ∧
                   forallb after_browser evs = true).
  { intros wf H5.
    assert (Hall : logs after_browser w1 wf) by (by repeat (etrans; [|done])).
    destruct Hall as (evs & Htr & Hevs). exists evs.
    rewrite Htr. unfold w1. cbn [trace]. by rewrite <- app_assoc. }
  destruct r as [code|err|]; [|intros [= _ <-]; by apply Hend..].
  destruct (Exchange E _ code _) as [r w5] eqn:Hx.
  apply Exchange_after in Hx. intros [= _ <-]. by apply Hend.
Qed.

End login_course.

(** The parameters [LoginFlow] gives its authorization URL, whatever the
    client. *)
Lemma AuthCodeURL_params (c : Config) :
  RedirectURL c ≠ "" →
  let q := url.Query (AuthCodeURL c "state"
                        [AccessTypeOffline; ApprovalForce]) in
  url.Get q "response_type" = "code" ∧
  url.Get q "access_type" = "offline" ∧
  url.Get q "prompt" = "consent" ∧
  url.Get q "client_id" = ClientID c ∧
  url.Get q "redirect_uri" = RedirectURL c.
Proof.
  intros Hredirect. unfold AuthCodeURL, url.Get, url.Set_. cbn.
  rewrite decide_False by done.
  destruct (Scopes c); by simplify_map_eq.
Qed.

Lemma loopback_redirect_nonempty (port : Z) : loopback_redirect port ≠ "".
Proof. done. Qed.

Lemma LoginFlow_run_listening (E : Env) (path : string) (w w1 w2 : World)
    (config : Config) (port : Z) :
  LoadClientConfig E path w = (Ok config, w1) →
  net_Listen E "tcp" "localhost:0" w1 = (Ok port, w2) →
  LoginFlow E path w =
  let '(o, w3) := LoginFlow_serve E config port w2 in
  (o, {| keychain := keychain w3; mux := mux w3;
         listening := listening w3 ∖ {[port]};
         trace := trace w3 ++ [EvClose port] |}).
Proof.
  intros Hconfig Hlisten. unfold LoginFlow.
  unfold mbind at 1, M_bind at 1. rewrite Hconfig.
  unfold mbind at 1, M_bind at 1. rewrite Hlisten.
  unfold mbind at 1, M_bind at 1.
  by destruct (LoginFlow_serve E config port w2) as [o w3].
Qed.

(** The four shapes of the trace of a login: nothing but the read of the
    client secret; that and the attempt to listen; those and a registration
    that panicked; or those, the announcement and what follows it. *)
Lemma LoginFlow_events (E : Env) (path : string) (w w' : World)
    (o : outcome (result Token)) :
  LoginFlow E path w = (o, w') →
  events_since w w' = [EvReadFile path] ∨
  events_since w w' = [EvReadFile path; EvListen "tcp" "localhost:0"] ∨
  (∃ port,
     events_since w w' =
       [EvReadFile path; EvListen "tcp" "localhost:0";
        EvHandleFunc "/callback"; EvClose port]) ∨
  (∃ config port evs,
     events_since w w' =
       EvReadFile path :: EvListen "tcp" "localhost:0"
       :: login_announcement port
            (AuthCodeURL (with_RedirectURL config (loopback_redirect port))
               "state" [AccessTypeOffline; ApprovalForce]) ++ evs ∧
     forallb after_browser evs = true).
Proof.
  destruct (LoadClientConfig E path w) as [[err|config] w1] eqn:Hconfig.
  { unfold LoginFlow. unfold mbind at 1, M_bind at 1. rewrite Hconfig.
    intros [= _ <-]. left. apply events_since_app.
    rewrite LoadClientConfig_run in Hconfig. by injection Hconfig as _ <-. }
  destruct (net_Listen E "tcp" "localhost:0" w1) as [[err|port] w2] eqn:Hlisten.
  { unfold LoginFlow. unfold mbind at 1, M_bind at 1. rewrite Hconfig.
    unfold mbind at 1, M_bind at 1. rewrite Hlisten.
    intros [= _ <-]. right. left. apply events_since_app.
    rewrite LoadClientConfig_run in Hconfig. injection Hconfig as _ <-.
    rewrite net_Listen_run in Hlisten.
    destruct (assigned_port E _ _ _); [|done]. injection Hlisten as _ <-.
    by rewrite !log_trace, <- app_assoc. }
  rewrite (LoginFlow_run_listening _ _ _ _ _ _ _ Hconfig Hlisten).
  assert (Htr2 : trace w2 = trace w ++ [EvReadFile path;
                                        EvListen "tcp" "localhost:0"]).
  { rewrite LoadClientConfig_run in Hconfig. injection Hconfig as _ <-.
    rewrite net_Listen_run in Hlisten.
    destruct (assigned_port E _ _ _); [done|]. injection Hlisten as _ <-.
    cbn. by rewrite <- app_assoc. }
  destruct (decide ("/callback" ∈ mux w2)) as [Hreg|Hfree].
  { unfold LoginFlow_serve. unfold mbind at 1, M_bind at 1.
    rewrite http_HandleFunc_run, decide_True by done.
    intros [= _ <-]. right. right. left. exists port.
    apply events_since_app. cbn. rewrite Htr2, <- !app_assoc. done. }
  destruct (LoginFlow_serve E config port w2) as [o' w3] eqn:Hserve.
  apply LoginFlow_serve_trace in Hserve as (evs & Htr & Hevs); [|done].
  intros [= _ <-]. right. right. right.
  exists config, port, (evs ++ [EvClose port]).
  split; [|by rewrite forallb_app, Hevs].
  apply events_since_app. cbn. rewrite Htr, Htr2, <- !app_assoc. done.
Qed.

(** X10. The authorization URL of a login.  A login sends the browser to
    at most one URL, the very one it has shown to the user; that URL asks
    for a code, for offline access and for the consent prompt, and names as
    redirect the callback route on the loopback port the login serves. *)
Theorem LoginFlow_opens_the_url_it_shows (E : Env) (path : string)
    (w w' : World) (o : outcome (result Token)) (u : url.URL) :
  LoginFlow E path w = (o, w') →
  EvOpenURL u ∈ events_since w w' →
  count_events is_open_url (events_since w w') = 1 ∧
  EvPrintlnURL u ∈ events_since w w' ∧
  url.Get (url.Query u) "response_type" = "code" ∧
  url.Get (url.Query u) "access_type" = "offline" ∧
  url.Get (url.Query u) "prompt" = "consent" ∧
  ∃ port,
    EvServe port ∈ events_since w w' ∧
    url.Get (url.Query u) "redirect_uri"
      = "http://localhost:" +:+ pretty port +:+ "/callback".
Proof.
  intros Hrun Hin.
  destruct (LoginFlow_events _ _ _ _ _ Hrun)
    as [Hev|[Hev|[(port & Hev)|(config & port & evs & Hev & Hevs)]]];
    rewrite Hev in Hin |- *.
  1-3: set_solver.
  set (u' := AuthCodeURL _ _ _) in *.
  assert (Hno : ∀ u0, EvOpenURL u0 ∉ evs).
  { intros u0 Hu0. rewrite forallb_forall in Hevs.
    by apply list_elem_of_In, Hevs in Hu0. }
  assert (u = u') as ->.
  { unfold login_announcement in Hin.
    rewrite !elem_of_cons, elem_of_app, !elem_of_cons in Hin.
    destruct Hin as [?|[?|[[?|[?|[?|[?|[?|[?|[?|Hnil]]]]]]]|Hin]]];
      try done; [by simplify_eq|by apply elem_of_nil in Hnil
                |by apply Hno in Hin]. }
  destruct (AuthCodeURL_params
              (with_RedirectURL config (loopback_redirect port))
              (loopback_redirect_nonempty port))
    as (Hrt & Hat & Hp & _ & Hru).
  split.
  { cbn. change (S (count_events is_open_url evs) = 1). f_equal.
    apply (count_events_disjoint _ after_browser); [by intros []|done]. }
  split; [unfold login_announcement; set_solver|].
  do 3 (split; [done|]). exists port.
  split; [unfold login_announcement; set_solver|exact Hru].
Qed.

Lemma LoginFlow_opens_the_url_it_shows_witness :
  ∃ u,
    EvOpenURL u ∈
      events_since (fresh_process ∅)
        (snd (LoginFlow Fake.consenting "client_secret.json"
                (fresh_process ∅))) ∧
    url.Get (url.Query u) "access_type" = "offline" ∧
    url.Get (url.Query u) "prompt" = "consent" ∧
    url.Get (url.Query u) "redirect_uri" = "http://localhost:49152/callback".
Proof.
  exists (AuthCodeURL
            (with_RedirectURL Fake.config "http://localhost:49152/callback")
            "state" [AccessTypeOffline; ApprovalForce]).
  assert (Hin : EvOpenURL
            (AuthCodeURL
               (with_RedirectURL Fake.config
                  "http://localhost:49152/callback")
               "state" [AccessTypeOffline; ApprovalForce]) ∈
          events_since (fresh_process ∅)
            (snd (LoginFlow Fake.consenting "client_secret.json"
                    (fresh_process ∅)))).
  { apply list_elem_of_lookup. exists 8. vm_compute. reflexivity. }
  split; [exact Hin|].
  edestruct (LoginFlow_opens_the_url_it_shows Fake.consenting
               "client_secret.json" (fresh_process ∅))
    as (_ & _ & _ & Hat & Hp & _).
  - reflexivity.
  - exact Hin.
  - split; [exact Hat|]. split; [exact Hp|]. vm_compute. reflexivity.
Defined.

(** A login whose callback brings a code, up to the exchange: the world in
    which [Exchange] is called, and what [LoginFlow] makes of its result. *)
Lemma LoginFlow_completed_run (E : Env) (path : string) (w w1 w2 : World)
    (config : Config) (port : Z) (delay : time.Duration)
    (query : url.Values) :
  "/callback" ∉ mux w →
  LoadClientConfig E path w = (Ok config, w1) →
  net_Listen E "tcp" "localhost:0" w1 = (Ok port, w2) →
  (∀ tr, first_arrival E tr = Some (delay, Request query)) →
  (delay < loginDeadline)%Z →
  url.Get query "code" ≠ "" →
  let cfg := with_RedirectURL config (loopback_redirect port) in
  let u := AuthCodeURL cfg "state" [AccessTypeOffline; ApprovalForce] in
  ∃ wx complaint,
    keychain wx = keychain w ∧
    listening wx = ({[port]} ∪ listening w) ∖ {[port]} ∧
    trace wx =
      trace w ++
      EvReadFile path :: EvListen "tcp" "localhost:0"
      :: login_announcement port u ++ complaint ++
         [EvRespond StatusOK successPage; EvShutdown] ∧
    forallb (λ ev, negb (is_round_trip ev)) complaint = true ∧
    LoginFlow E path w =
    let '(r, w5) := Exchange E cfg (url.Get query "code") wx in
    (Returned
       match r with
       | Err err =>
           Err (wrapError "could not exchange authorization code: " err)
       | Ok token => Ok token
       end,
     {| keychain := keychain w5; mux := mux w5;
        listening := listening w5 ∖ {[port]};
        trace := trace w5 ++ [EvClose port] |}).
Proof.
  intros Hfree Hconfig Hlisten Harrival Hdelay Hcode cfg u.
  rewrite (LoginFlow_run_listening _ _ _ _ _ _ _ Hconfig Hlisten).
  rewrite LoadClientConfig_run in Hconfig. injection Hconfig as _ <-.
  rewrite net_Listen_run in Hlisten.
  destruct (assigned_port E _ _ _); [done|]. injection Hlisten as -> <-.
  rewrite LoginFlow_serve_run by done. cbv zeta. fold cfg. fold u.
  cbn [trace keychain mux listening log].
  set (w3 := {| keychain := keychain w;
                mux := {["/callback"]} ∪ mux w;
                listening := {[port]} ∪ listening w;
                trace := ((trace w ++ [EvReadFile path]) ++
                          [EvListen "tcp" "localhost:0"]) ++
                         login_announcement port u |}).
  destruct (open_browser E _ u) as [err|].
  - rewrite await_run, Harrival, decide_True, callbackHandler_run by done.
    rewrite decide_False by done. cbn [snd].
    match goal with
    | |- context [Exchange E cfg _ ?wx] => exists wx, [EvPrintln
        ("Could not open browser automatically: " +:+ Error err)]
    end.
    do 2 (split; [done|]). split; [unfold server_Shutdown, w3; run; cbn; by rewrite <- !app_assoc|].
    split; [done|]. by destruct (Exchange E cfg _ _) as [r w5].
  - rewrite await_run, Harrival, decide_True, callbackHandler_run by done.
    rewrite decide_False by done. cbn [snd].
    match goal with
    | |- context [Exchange E cfg _ ?wx] => exists wx, []
    end.
    do 2 (split; [done|]). split; [unfold server_Shutdown, w3; run; cbn; by rewrite <- !app_assoc|].
    split; [done|]. by destruct (Exchange E cfg _ _) as [r w5].
Qed.

Lemma count_events_cons (p : Event → bool) (ev : Event) (evs : list Event) :
  count_events p (ev :: evs)
  = (if p ev then 1 else 0) + count_events p evs.
Proof. unfold count_events. cbn. by destruct (p ev). Qed.

Lemma retrieveToken_run (E : Env) (conf : Config)
    (form : list (string * string)) (w : World) :
  retrieveToken E conf form w =
  let w1 := log (EvRoundTrip conf form) w in
  match provider E (trace w) conf form with
  | Err err => (Err err, w1)
  | Ok reply =>
      let timed := bool_decide (expires_in reply ≠ 0%Z) in
      (if decide (access_token reply = "") then
         Err (errorString "oauth2: server response missing access_token")
       else
         Ok {| AccessToken := access_token reply;
               TokenType := token_type reply;
               oauth2.RefreshToken :=
                 if decide (refresh_token reply = "")
                 then form_Get form "refresh_token"
                 else refresh_token reply;
               Expiry :=
                 if timed
                 then time.Add (clock E (trace w1))
                        (expires_in reply * time.Second)%Z
                 else time.zero |},
       if timed then log EvNow w1 else w1)
  end.
Proof.
  unfold retrieveToken, time_Now. run. cbn.
  destruct (provider E (trace w) conf form) as [err|reply]; [done|].
  destruct (decide (expires_in reply = 0%Z)) as [Hz|Hz].
  - rewrite bool_decide_eq_false_2 by (by intros ?). by case_decide.
  - rewrite bool_decide_eq_true_2 by done. by case_decide.
Qed.

(** X11. A login that the user grants.  When the handler is free, the
    client secret loads, a port is bound, a request with a code reaches the
    callback before the deadline and the provider answers the exchange
    with an access token, [LoginFlow] returns the token of that answer,
    whether or not the browser could be started.  It has made one round
    trip, which sent the code of the callback and, as redirect URI, the one
    of the authorization URL; the port is closed. *)
Theorem LoginFlow_exchanges_the_code (E : Env) (path : string)
    (w w1 w2 : World) (config : Config) (port : Z) (delay : time.Duration)
    (query : url.Values) (reply : TokenResponse) :
  "/callback" ∉ mux w →
  LoadClientConfig E path w = (Ok config, w1) →
  net_Listen E "tcp" "localhost:0" w1 = (Ok port, w2) →
  (∀ tr, first_arrival E tr = Some (delay, Request query)) →
  (delay < loginDeadline)%Z →
  url.Get query "code" ≠ "" →
  (∀ tr cfg form, provider E tr cfg form = Ok reply) →
  access_token reply ≠ "" →
  let cfg := with_RedirectURL config (loopback_redirect port) in
  let u := AuthCodeURL cfg "state" [AccessTypeOffline; ApprovalForce] in
  let form := [("grant_type", "authorization_code");
               ("code", url.Get query "code");
               ("redirect_uri", loopback_redirect port)] in
  ∃ token w',
    LoginFlow E path w = (Returned (Ok token), w') ∧
    AccessToken token = access_token reply ∧
    TokenType token = token_type reply ∧
    oauth2.RefreshToken token = refresh_token reply ∧
    EvOpenURL u ∈ events_since w w' ∧
    EvRespond 200%Z successPage ∈ events_since w w' ∧
    EvRoundTrip cfg form ∈ events_since w w' ∧
    count_events is_round_trip (events_since w w') = 1 ∧
    url.Get (url.Query u) "redirect_uri" = form_Get form "redirect_uri" ∧
    port ∉ listening w'.
Proof.
  intros Hfree Hconfig Hlisten Harrival Hdelay Hcode Hreply Htoken cfg u form.
  destruct (LoginFlow_completed_run E path w w1 w2 config port delay query)
    as (wx & complaint & Hkc & Hl & Htr & Hquiet & ->); try done.
  fold cfg. unfold Exchange. cbn [RedirectURL with_RedirectURL].
  rewrite decide_False by apply loopback_redirect_nonempty.
  fold form. rewrite retrieveToken_run, Hreply. cbv zeta.
  rewrite decide_False by done.
  assert (Hsince : ∀ tail wf,
    trace wf = trace wx ++ EvRoundTrip cfg form :: tail ++ [EvClose port] →
    events_since w wf
    = EvReadFile path :: EvListen "tcp" "localhost:0"
      :: login_announcement port u ++ complaint ++
         [EvRespond StatusOK successPage; EvShutdown; EvRoundTrip cfg form]
         ++ tail ++ [EvClose port]).
  { intros tail wf Hwf. apply events_since_app. rewrite Hwf, Htr.
    rewrite <- !app_assoc. cbn. by rewrite <- !app_assoc. }
  assert (Hrt : url.Get (url.Query u) "redirect_uri"
                = form_Get form "redirect_uri").
  { destruct (AuthCodeURL_params cfg (loopback_redirect_nonempty port))
      as (_ & _ & _ & _ & Hru).
    etrans; [exact Hru|reflexivity]. }
  destruct (bool_decide (expires_in reply ≠ 0%Z)).
  - eexists _, _. split; [reflexivity|].
    cbn [AccessToken TokenType oauth2.RefreshToken].
    do 2 (split; [done|]). split; [by case_decide|].
    rewrite (Hsince [EvNow]) by (cbn; by rewrite <- !app_assoc).
    split; [unfold login_announcement; set_solver|].
    split; [unfold login_announcement, StatusOK; set_solver|].
    split; [unfold login_announcement; set_solver|].
    split; [by rewrite !count_events_cons, !count_events_app,
                       (count_events_none _ complaint)|].
    split; [done|]. cbn. set_solver.
  - eexists _, _. split; [reflexivity|].
    cbn [AccessToken TokenType oauth2.RefreshToken].
    do 2 (split; [done|]). split; [by case_decide|].
    rewrite (Hsince []) by (cbn; by rewrite <- !app_assoc).
    split; [unfold login_announcement; set_solver|].
    split; [unfold login_announcement, StatusOK; set_solver|].
    split; [unfold login_announcement; set_solver|].
    split; [by rewrite !count_events_cons, !count_events_app,
                       (count_events_none _ complaint)|].
    split; [done|]. cbn. set_solver.
Qed.

Lemma LoginFlow_exchanges_the_code_witness :
  ∃ token w',
    LoginFlow Fake.consenting "client_secret.json" (fresh_process ∅)
      = (Returned (Ok token), w') ∧
    AccessToken token = "tok2" ∧
    EvRoundTrip
      (with_RedirectURL Fake.config "http://localhost:49152/callback")
      [("grant_type", "authorization_code"); ("code", "AUTH123");
       ("redirect_uri", "http://localhost:49152/callback")]
      ∈ events_since (fresh_process ∅) w' ∧
    49152%Z ∉ listening w'.
Proof.
  edestruct (LoginFlow_exchanges_the_code Fake.consenting "client_secret.json"
               (fresh_process ∅))
    as (token & w' & Hrun & Hat & _ & _ & _ & _ & Hrt & _ & _ & Hclosed).
  - apply not_elem_of_empty.
  - reflexivity.
  - reflexivity.
  - intros tr. reflexivity.
  - reflexivity.
  - vm_compute. discriminate.
  - intros tr cfg form. reflexivity.
  - vm_compute. discriminate.
  - exists token, w'. split; [exact Hrun|]. split; [exact Hat|].
    split; [exact Hrt|exact Hclosed].
Defined.

(** X12. A login that fails in the exchange has told the browser it
    succeeded.  When a request with a code reaches the callback and the
    provider then refuses the exchange, [LoginFlow] fails with the cause
    behind "could not exchange authorization code: ", after the handler
    has answered the browser with status 200 and the page of success; the
    port is closed and the keychain is as it was. *)
Theorem exchange_failure_follows_success_page (E : Env) (path : string)
    (w w1 w2 : World) (config : Config) (port : Z) (delay : time.Duration)
    (query : url.Values) (cause : error) :
  "/callback" ∉ mux w →
  LoadClientConfig E path w = (Ok config, w1) →
  net_Listen E "tcp" "localhost:0" w1 = (Ok port, w2) →
  (∀ tr, first_arrival E tr = Some (delay, Request query)) →
  (delay < loginDeadline)%Z →
  url.Get query "code" ≠ "" →
  (∀ tr cfg form, provider E tr cfg form = Err cause) →
  ∃ w' before,
    LoginFlow E path w =
      (Returned (Err (wrapError "could not exchange authorization code: "
                        cause)), w') ∧
    events_since w w' =
      before ++ [EvRespond 200%Z successPage; EvShutdown;
                 EvRoundTrip
                   (with_RedirectURL config (loopback_redirect port))
                   [("grant_type", "authorization_code");
                    ("code", url.Get query "code");
                    ("redirect_uri", loopback_redirect port)];
                 EvClose port] ∧
    keychain w' = keychain w ∧
    port ∉ listening w'.
Proof.
  intros Hfree Hconfig Hlisten Harrival Hdelay Hcode Hreply.
  destruct (LoginFlow_completed_run E path w w1 w2 config port delay query)
    as (wx & complaint & Hkc & Hl & Htr & Hquiet & ->); try done.
  set (cfg := with_RedirectURL config (loopback_redirect port)) in *.
  set (u := AuthCodeURL cfg "state" [AccessTypeOffline; ApprovalForce]) in *.
  unfold Exchange.
  assert (Hredirect : RedirectURL cfg = loopback_redirect port) by done.
  rewrite Hredirect.
  rewrite decide_False by apply loopback_redirect_nonempty.
  set (form := [("grant_type", "authorization_code");
                ("code", url.Get query "code");
                ("redirect_uri", loopback_redirect port)]).
  rewrite retrieveToken_run, Hreply. cbv zeta.
  exists {| keychain := keychain wx; mux := mux wx;
            listening := listening wx ∖ {[port]};
            trace := trace wx ++ [EvRoundTrip cfg form; EvClose port] |},
         (EvReadFile path :: EvListen "tcp" "localhost:0"
          :: login_announcement port u ++ complaint).
  split.
  { unfold log. cbn [keychain mux listening trace]. by rewrite <- app_assoc. }
  split.
  { apply events_since_app. cbn [trace]. rewrite Htr.
    rewrite <- !app_assoc. cbn [app]. by rewrite <- !app_assoc. }
  split; [done|]. cbn [listening]. rewrite Hl.
  rewrite !elem_of_difference, elem_of_singleton. tauto.
Qed.

Lemma exchange_failure_follows_success_page_witness :
  ∃ w',
    LoginFlow
      (Fake.env 6000%Z (Err (errorString "oauth2: invalid_grant")) 49152%Z
         (Some (1%Z, Request Fake.code_query)))
      "client_secret.json" (fresh_process ∅)
    = (Returned (Err (wrapError "could not exchange authorization code: "
                        (errorString "oauth2: invalid_grant"))), w') ∧
    EvRespond 200%Z successPage ∈ events_since (fresh_process ∅) w'.
Proof.
  edestruct (exchange_failure_follows_success_page
               (Fake.env 6000%Z (Err (errorString "oauth2: invalid_grant"))
                  49152%Z (Some (1%Z, Request Fake.code_query)))
               "client_secret.json" (fresh_process ∅))
    as (w' & before & Hrun & Hev & _).
  - apply not_elem_of_empty.
  - reflexivity.
  - reflexivity.
  - intros tr. reflexivity.
  - reflexivity.
  - vm_compute. discriminate.
  - intros tr cfg form. reflexivity.
  - exists w'. split; [exact Hrun|]. rewrite Hev. set_solver.
Defined.
